(** * treetagger.py: the TreeTagger pipe interface, embedded in Rocq

    The module [src/treetagger.py] wraps the external TreeTagger binary:
    [TreeTagger.__init__] validates the language and asks NLTK's
    [find_binary] for the executable, and the generator [TreeTagger.tag]
    joins its input, runs the binary through [Popen]/[communicate], checks
    the return code and then yields one field list per line of the output
    file.

    Python [str] values are lists of Unicode code points ([N]); [bytes] are
    lists of [Byte.byte].  The external collaborators (the platform name,
    [find_binary], the spawned binary, the buffering of the text reader) are
    the fields of an [Env] record; the only mutable state outside the call
    is the file offset of a readable stream handed in as input, kept in a
    [world]. *)

From Stdlib Require Import List NArith ZArith Bool String Ascii Lia.
From Stdlib.Strings Require Import Byte.
Import ListNotations.

Local Open Scope N_scope.

(** ** Python strings *)

Module PyStr.

Definition codepoint := N.
Definition pystr := list codepoint.

(** An ASCII literal as a Python [str]. *)
Definition py (s : string) : pystr :=
  List.map N_of_ascii (list_ascii_of_string s).

Definition pystr_eqb (a b : pystr) : bool :=
  if list_eq_dec N.eq_dec a b then true else false.

Definition TAB : codepoint := 9.
Definition LF : codepoint := 10.
Definition CR : codepoint := 13.

(** [sep.join(parts)]. *)
Fixpoint join (sep : pystr) (parts : list pystr) : pystr :=
  match parts with
  | [] => []
  | [p] => p
  | p :: rest => p ++ sep ++ join sep rest
  end.

(** [c.isspace()] for one code point: the characters [str.strip()] removes
    when called without an argument. *)
Definition isspace (c : codepoint) : bool :=
  ((9 <=? c) && (c <=? 13))
  || ((28 <=? c) && (c <=? 32))
  || (c =? 133) || (c =? 160) || (c =? 5760)
  || ((8192 <=? c) && (c <=? 8202))
  || (c =? 8232) || (c =? 8233) || (c =? 8239) || (c =? 8287)
  || (c =? 12288).

Fixpoint lstrip (s : pystr) : pystr :=
  match s with
  | [] => []
  | c :: t => if isspace c then lstrip t else s
  end.

Fixpoint rstrip (s : pystr) : pystr :=
  match s with
  | [] => []
  | c :: t =>
      match rstrip t with
      | [] => if isspace c then [] else [c]
      | t' => c :: t'
      end
  end.

(** [s.strip()]. *)
Definition strip (s : pystr) : pystr := rstrip (lstrip s).

(** [s.split(sep)] for a one-character separator: cuts at every occurrence,
    keeps empty fields, never returns the empty list. *)
Fixpoint split (sep : codepoint) (s : pystr) : list pystr :=
  match s with
  | [] => [[]]
  | c :: t =>
      if c =? sep then [] :: split sep t
      else match split sep t with
           | [] => [[c]]
           | f :: fs => (c :: f) :: fs
           end
  end.

(** Number of occurrences of a character, [s.count(c)]. *)
Fixpoint count (c : codepoint) (s : pystr) : nat :=
  match s with
  | [] => O
  | d :: t => if d =? c then S (count c t) else count c t
  end.

(** [str.encode('utf-8')] for one code point.  Surrogates cannot be encoded
    ([UnicodeEncodeError]); values above U+10FFFF are not code points. *)
Definition byte_of_N (n : N) : byte :=
  match Byte.of_N (n mod 256) with
  | Some b => b
  | None => x00
  end.

Definition utf8_char (c : codepoint) : option (list byte) :=
  if c <? 128 then Some [byte_of_N c]
  else if c <? 2048 then
    Some [byte_of_N (N.lor 192 (N.shiftr c 6));
          byte_of_N (N.lor 128 (N.land c 63))]
  else if c <? 65536 then
    if (55296 <=? c) && (c <=? 57343) then None
    else Some [byte_of_N (N.lor 224 (N.shiftr c 12));
               byte_of_N (N.lor 128 (N.land (N.shiftr c 6) 63));
               byte_of_N (N.lor 128 (N.land c 63))]
  else if c <? 1114112 then
    Some [byte_of_N (N.lor 240 (N.shiftr c 18));
          byte_of_N (N.lor 128 (N.land (N.shiftr c 12) 63));
          byte_of_N (N.lor 128 (N.land (N.shiftr c 6) 63));
          byte_of_N (N.lor 128 (N.land c 63))]
  else None.

Fixpoint encode_utf8 (s : pystr) : option (list byte) :=
  match s with
  | [] => Some []
  | c :: t =>
      match utf8_char c, encode_utf8 t with
      | Some bs, Some rest => Some (bs ++ rest)
      | _, _ => None
      end
  end.

(** The UTF-8 decoder of the text reader, in its strict mode: the text of
    the longest prefix that decodes, and whether that was everything.
    Overlong forms, surrogates, values above U+10FFFF and a sequence cut
    short by the end of the data do not decode. *)
Definition continuation (n : N) : bool := (128 <=? n) && (n <=? 191).

Definition second_of_three (n0 n1 : N) : bool :=
  if n0 =? 224 then (160 <=? n1) && (n1 <=? 191)
  else if n0 =? 237 then (128 <=? n1) && (n1 <=? 159)
  else continuation n1.

Definition second_of_four (n0 n1 : N) : bool :=
  if n0 =? 240 then (144 <=? n1) && (n1 <=? 191)
  else if n0 =? 244 then (128 <=? n1) && (n1 <=? 143)
  else continuation n1.

Definition low6 (n : N) : N := N.land n 63.

Definition cons_decoded (c : codepoint) (r : pystr * bool) : pystr * bool :=
  (c :: fst r, snd r).

Fixpoint decode_utf8 (data : list byte) : pystr * bool :=
  match data with
  | [] => ([], true)
  | b0 :: r0 =>
      let n0 := Byte.to_N b0 in
      if n0 <? 128 then cons_decoded n0 (decode_utf8 r0)
      else
        match r0 with
        | [] => ([], false)
        | b1 :: r1 =>
            let n1 := Byte.to_N b1 in
            if (194 <=? n0) && (n0 <=? 223) then
              if continuation n1
              then cons_decoded
                     (N.lor (N.shiftl (N.land n0 31) 6) (low6 n1))
                     (decode_utf8 r1)
              else ([], false)
            else
              match r1 with
              | [] => ([], false)
              | b2 :: r2 =>
                  let n2 := Byte.to_N b2 in
                  if (224 <=? n0) && (n0 <=? 239) then
                    if second_of_three n0 n1 && continuation n2
                    then cons_decoded
                           (N.lor (N.shiftl (N.land n0 15) 12)
                              (N.lor (N.shiftl (low6 n1) 6) (low6 n2)))
                           (decode_utf8 r2)
                    else ([], false)
                  else
                    match r2 with
                    | [] => ([], false)
                    | b3 :: r3 =>
                        let n3 := Byte.to_N b3 in
                        if (240 <=? n0) && (n0 <=? 244)
                           && second_of_four n0 n1
                           && continuation n2 && continuation n3
                        then cons_decoded
                               (N.lor (N.shiftl (N.land n0 7) 18)
                                  (N.lor (N.shiftl (low6 n1) 12)
                                     (N.lor (N.shiftl (low6 n2) 6)
                                        (low6 n3))))
                               (decode_utf8 r3)
                        else ([], false)
                    end
              end
        end
  end.

End PyStr.
Import PyStr.

(** ** The text file the binary writes to

    [tempfile.TemporaryFile(mode="w+", encoding="utf8")] is a text file with
    the default [newline=None]: on reading, ["\r\n"] and a lone ["\r"] are
    translated to ["\n"], and iteration returns the lines with their
    terminator, the last one possibly without.  The file holds the bytes
    the binary wrote; the reader decodes them as it goes. *)

Module TextFile.

Fixpoint universal_newlines (s : pystr) : pystr :=
  match s with
  | [] => []
  | c :: t =>
      if c =? CR then
        match t with
        | d :: _ => if d =? LF then universal_newlines t
                    else LF :: universal_newlines t
        | [] => [LF]
        end
      else c :: universal_newlines t
  end.

Fixpoint keepends (s : pystr) : list pystr :=
  match s with
  | [] => []
  | c :: t =>
      if c =? LF then [c] :: keepends t
      else match keepends t with
           | [] => [[c]]
           | l :: ls => (c :: l) :: ls
           end
  end.

(** The lines [for tagged_line in outfile] runs over after [seek(0)]. *)
Definition lines (content : pystr) : list pystr :=
  keepends (universal_newlines content).

(** A line that has its terminator. *)
Definition terminated (line : pystr) : bool :=
  match rev line with
  | c :: _ => c =? LF
  | [] => false
  end.

Definition complete_lines (content : pystr) : list pystr :=
  filter terminated (lines content).

End TextFile.

(** ** Exceptions, effects and the outside world *)

Inductive exc : Type :=
| LookupError (msg : pystr)
| OSError (msg : pystr)
| AttributeError (attr : pystr)
| PopenError                      (* whatever [Popen] raises when it cannot start the binary *)
| UnicodeEncodeError
| UnicodeDecodeError.

Inductive result (A : Type) : Type :=
| Ok (a : A)
| Raise (e : exc).
Arguments Ok {A} a.
Arguments Raise {A} e.

Definition handle := nat.

(** What [print] is given. *)
Inductive printed : Type :=
| PStr (s : pystr)
| PBytes (b : list byte).

(** The [stdin=] argument of [Popen]. *)
Inductive stdin_arg : Type :=
| PIPE
| FromStream (h : handle).

(** What is known of the process once [communicate] has returned: its
    [returncode], the bytes it wrote to the output file, how many bytes of
    its standard input it read, and the bytes read from its standard error
    pipe. *)
Record completed : Type := {
  returncode : Z;
  stdout : list byte;
  stdin_consumed : nat;
  stderr : list byte
}.

(** The interactions of the module with the outside, in the order they
    happen: a [print], a [Popen] with its argument vector, a [communicate]
    with the payload it was given and the state of the process it waited
    for. *)
Inductive event : Type :=
| EvPrint (v : printed)
| EvPopen (argv : list pystr) (stdin : stdin_arg)
| EvCommunicate (input : option (list byte)) (done : completed).

(** The collaborators the module does not define.

    [find_binary] returns [None] where NLTK raises [LookupError]; when it
    finds the binary and [verbose] is set, NLTK prints one line,
    [found_notice], and it prints nothing otherwise.

    [can_spawn] tells whether the binary can be executed; [has_fileno]
    whether a readable object has a file descriptor [Popen] can hand to the
    process (a file or a pipe has one, an [io.StringIO] has none).

    [binary] is the external tool as a function of its argument vector and
    of the bytes available on its standard input.

    [lines_before_decode_error] is the buffering of the text reader: from an
    output that is not valid UTF-8, how many lines it hands out before it
    reaches the chunk that does not decode. *)
Record Env : Type := {
  _platform : pystr;
  find_binary : pystr -> option pystr -> bool -> option pystr;
  found_notice : pystr -> option pystr -> pystr -> pystr;
  can_spawn : list pystr -> bool;
  has_fileno : handle -> bool;
  binary : list pystr -> list byte -> completed;
  lines_before_decode_error : list byte -> nat
}.

(** For every readable object with a file descriptor, the bytes from the
    current offset of the descriptor to the end: what a process started on
    that descriptor can read.  The buffer Python keeps for the object plays
    no part: [Popen] hands the descriptor itself to the process. *)
Definition world := handle -> list byte.

(** The world once a process has read [n] bytes from the descriptor of
    stream [h]. *)
Definition advanced (w : world) (h : handle) (n : nat) : world :=
  fun k => if Nat.eqb k h then skipn n (w k) else w k.

(** A computation that reads and updates the world, logs its effects in
    order and may raise. *)
Definition M (A : Type) : Type := world -> result A * world * list event.

Definition ret {A} (a : A) : M A := fun w => (Ok a, w, []).

Definition raise {A} (e : exc) : M A := fun w => (Raise e, w, []).

Definition bind {A B} (m : M A) (k : A -> M B) : M B :=
  fun w =>
    match m w with
    | (Ok a, w1, l1) =>
        match k a w1 with
        | (r, w2, l2) => (r, w2, l1 ++ l2)
        end
    | (Raise e, w1, l1) => (Raise e, w1, l1)
    end.

Definition emit (e : event) : M unit := fun w => (Ok tt, w, [e]).

Notation "x <- m ;; k" := (bind m (fun x => k))
  (at level 61, m at next level, right associativity).
Notation "m ;;; k" := (bind m (fun _ => k))
  (at level 61, right associativity).

Definition print (v : printed) : M unit := emit (EvPrint v).

(** ** The module *)

Definition _treetagger_languages : list pystr :=
  List.map py
    ["bulgarian"; "dutch"; "english"; "estonian"; "finnish"; "french";
     "galician"; "german"; "italian"; "polish"; "portuguese";
     "portuguese-finegrained"; "russian"; "slovak"; "slovak2";
     "spanish"]%string.

(** An instance.  [_treetagger_bin] is [None] when [__init__] never assigned
    the attribute. *)
Record TreeTagger : Type := {
  _abbr_list : option pystr;
  _treetagger_bin : option pystr
}.

(** [language in _treetagger_languages]. *)
Definition language_known (language : pystr) : bool :=
  existsb (pystr_eqb language) _treetagger_languages.

Definition treetagger_bin_name (env : Env) (language : pystr) : pystr :=
  if pystr_eqb (_platform env) (py "win32")
  then py "tag-" ++ language
  else py "tree-tagger-" ++ language.

(** [TreeTagger.__init__]: the instance or the exception, and what was
    printed, the notice of NLTK's [find_binary] included.  The search path,
    the environment variable names and the URL handed to [find_binary] are
    constants and stay inside [find_binary]. *)
Definition __init__ (env : Env) (path_to_home : option pystr)
    (language : pystr) (verbose : bool) (abbreviation_list : option pystr)
  : M TreeTagger :=
  if language_known language then
    match find_binary env (treetagger_bin_name env language)
            path_to_home verbose with
    | Some path =>
        (if verbose
         then print (PStr (found_notice env (treetagger_bin_name env language)
                             path_to_home path))
         else ret tt) ;;;
        ret {| _abbr_list := abbreviation_list;
               _treetagger_bin := Some path |}
    | None =>
        print (PStr (py "NLTK was unable to find the TreeTagger bin!")) ;;;
        ret {| _abbr_list := abbreviation_list;
               _treetagger_bin := None |}
    end
  else raise (LookupError (py "Language not in language list!")).

(** The three kinds of argument [tag] distinguishes. *)
Inductive sentences_arg : Type :=
| TokenList (tokens : list pystr)     (* [isinstance(sentences, list)] *)
| Text (s : pystr)                    (* a [str] *)
| Readable (h : handle).              (* [hasattr(_input, 'read')] *)

(** The value of [_input]. *)
Inductive input_value : Type :=
| IStr (s : pystr)
| IStream (h : handle).

Definition normalize (sentences : sentences_arg) : input_value :=
  match sentences with
  | TokenList tokens => IStr (join [LF] tokens)
  | Text s => IStr s
  | Readable h => IStream h
  end.

Definition infile_of (_input : input_value) : stdin_arg :=
  match _input with
  | IStream h => FromStream h
  | IStr _ => PIPE
  end.

(** [self._treetagger_bin]. *)
Definition get_treetagger_bin (self : TreeTagger) : M pystr :=
  match _treetagger_bin self with
  | Some b => ret b
  | None => raise (AttributeError (py "_treetagger_bin"))
  end.

Record process : Type := {
  p_argv : list pystr;
  p_stdin : stdin_arg
}.

(** Whether [Popen] can connect the standard input it is given. *)
Definition stdin_usable (env : Env) (stdin : stdin_arg) : bool :=
  match stdin with
  | PIPE => true
  | FromStream h => has_fileno env h
  end.

(** [Popen(argv, stdin=...)]: it raises when the object given as standard
    input has no file descriptor or when the binary cannot be executed. *)
Definition Popen (env : Env) (argv : list pystr) (stdin : stdin_arg)
  : M process :=
  emit (EvPopen argv stdin) ;;;
  if stdin_usable env stdin && can_spawn env argv
  then ret {| p_argv := argv; p_stdin := stdin |}
  else raise PopenError.

(** [p.communicate(input)]: the process has the payload on its pipe, or the
    bytes from the offset of the descriptor it was connected to, and runs
    to its end; the descriptor is left after the bytes the process read. *)
Definition communicate (env : Env) (p : process) (input : option (list byte))
  : M completed :=
  match p_stdin p with
  | PIPE =>
      let done :=
        binary env (p_argv p)
          (match input with Some data => data | None => [] end) in
      emit (EvCommunicate input done) ;;;
      ret done
  | FromStream h =>
      fun w =>
        let done := binary env (p_argv p) (w h) in
        (Ok done, advanced w h (stdin_consumed done),
         [EvCommunicate input done])
  end.

Definition encode (s : pystr) : M (list byte) :=
  match encode_utf8 s with
  | Some data => ret data
  | None => raise UnicodeEncodeError
  end.

(** The body of [tag] down to [outfile.seek(0)]: the content of the output
    file on success. *)
Definition run_tagger (env : Env) (self : TreeTagger)
    (sentences : sentences_arg) : M (list byte) :=
  let _input := normalize sentences in
  let infile := infile_of _input in
  p <- match _abbr_list self with
       | None =>
           bin <- get_treetagger_bin self ;;
           Popen env [bin] infile
       | Some abbr =>
           bin <- get_treetagger_bin self ;;
           Popen env [bin; py "-a"; abbr] infile
       end ;;
  done <- match _input with
          | IStream _ => communicate env p None
          | IStr s => data <- encode s ;; communicate env p (Some data)
          end ;;
  if (returncode done =? 0)%Z
  then ret (stdout done)
  else print (PBytes (stderr done)) ;;;
       raise (OSError (py "TreeTagger command failed!")).

(** [tagged_line.strip().split('\t')]. *)
Definition tagged_word_split (tagged_line : pystr) : list pystr :=
  split TAB (strip tagged_line).

(** What [for tagged_line in outfile] gets from the output file: all the
    lines of its text when the bytes are valid UTF-8; otherwise some of the
    complete lines before the first byte that does not decode, as many as
    the buffering of the reader lets through, and then
    [UnicodeDecodeError]. *)
Definition read_outfile (env : Env) (content : list byte)
  : list pystr * bool :=
  match decode_utf8 content with
  | (text, true) => (TextFile.lines text, false)
  | (decoded, false) =>
      (firstn (lines_before_decode_error env content)
         (TextFile.complete_lines decoded), true)
  end.

(** [tag] is a generator function: the call only builds the generator, the
    body runs from the first [next] on, one line of the output file per
    [yield].  A suspended generator holds the lines still to come and
    whether the reader fails after them. *)
Inductive generator : Type :=
| Created (self : TreeTagger) (sentences : sentences_arg)
| Suspended (rest : list pystr) (undecodable : bool)
| Finished.

Inductive next_result : Type :=
| Yield (fields : list pystr)
| StopIteration
| Raised (e : exc).

Definition tag (self : TreeTagger) (sentences : sentences_arg) : generator :=
  Created self sentences.

Definition resume (outfile : list pystr) (undecodable : bool)
  : next_result * generator :=
  match outfile with
  | [] =>
      if undecodable then (Raised UnicodeDecodeError, Finished)
      else (StopIteration, Finished)
  | tagged_line :: rest =>
      (Yield (tagged_word_split tagged_line), Suspended rest undecodable)
  end.

Definition next (env : Env) (g : generator) (w : world)
  : next_result * generator * world * list event :=
  match g with
  | Created self sentences =>
      match run_tagger env self sentences w with
      | (Ok content, w', log) =>
          (resume (fst (read_outfile env content))
             (snd (read_outfile env content)), w', log)
      | (Raise e, w', log) => (Raised e, Finished, w', log)
      end
  | Suspended rest undecodable => (resume rest undecodable, w, [])
  | Finished => (StopIteration, Finished, w, [])
  end.

(** What a caller sees who iterates a generator to its end, as
    [list(tt.tag(...))] or a [for] loop does. *)
Record observed : Type := {
  records : list (list pystr);
  raised : option exc;
  effects : list event
}.

Fixpoint iterate (env : Env) (fuel : nat) (g : generator) (w : world)
  : option (observed * world) :=
  match fuel with
  | O => None
  | S fuel' =>
      match next env g w with
      | (Yield fields, g', w', log) =>
          match iterate env fuel' g' w' with
          | Some (o, w'') =>
              Some ({| records := fields :: records o;
                       raised := raised o;
                       effects := log ++ effects o |}, w'')
          | None => None
          end
      | (StopIteration, _, w', log) =>
          Some ({| records := []; raised := None; effects := log |}, w')
      | (Raised e, _, w', log) =>
          Some ({| records := []; raised := Some e; effects := log |}, w')
      end
  end.

(** ** Vocabulary of the specification *)

(** The argument vector the specification describes. *)
Definition argument_vector (executable_path : pystr)
    (abbreviation_list_path : option pystr) : list pystr :=
  match abbreviation_list_path with
  | None => [executable_path]
  | Some path => [executable_path; py "-a"; path]
  end.

(** The call ran the external process, which completed as [done]. *)
Definition exited (env : Env) (self : TreeTagger) (sentences : sentences_arg)
    (w : world) (done : completed) : Prop :=
  exists input,
    In (EvCommunicate input done) (snd (next env (tag self sentences) w)).

(** Iterating [g] from [w] comes to an end, and the caller has then seen
    [o]: every large enough fuel gives that same result. *)
Definition runs_to (env : Env) (g : generator) (w : world) (o : observed)
  : Prop :=
  exists n w', forall fuel, (n <= fuel)%nat -> iterate env fuel g w = Some (o, w').

(** The same, naming the world the iteration leaves behind. *)
Definition runs_from (env : Env) (g : generator) (w : world) (o : observed)
    (w' : world) : Prop :=
  exists n, forall fuel, (n <= fuel)%nat -> iterate env fuel g w = Some (o, w').

(** The text of the output of a process: the longest prefix of its bytes
    that decodes, and the whole of it when the output is valid UTF-8. *)
Definition stdout_decoded (done : completed) : pystr :=
  fst (decode_utf8 (stdout done)).

Definition stdout_text (done : completed) : option pystr :=
  match decode_utf8 (stdout done) with
  | (text, true) => Some text
  | (_, false) => None
  end.

(** The input is a readable stream. *)
Definition is_stream (sentences : sentences_arg) : bool :=
  match sentences with
  | Readable _ => true
  | _ => false
  end.

(** The argument vectors of the [Popen] calls in a log. *)
Fixpoint popen_calls (log : list event) : list (list pystr) :=
  match log with
  | [] => []
  | EvPopen argv _ :: rest => argv :: popen_calls rest
  | _ :: rest => popen_calls rest
  end.

(** The payloads written to the process in a log. *)
Fixpoint payloads (log : list event) : list (option (list byte)) :=
  match log with
  | [] => []
  | EvCommunicate input _ :: rest => input :: payloads rest
  | _ :: rest => payloads rest
  end.






Definition trim_line_terminator (line : pystr) : pystr :=
  match rev line with
  | c :: before => if c =? LF then rev before else line
  | [] => line
  end.

(** The non-empty lines of an output: those with something before their
    terminator. *)
Definition nonempty_line (line : pystr) : bool :=
  match trim_line_terminator line with
  | [] => false
  | _ => true
  end.

Definition nonempty_lines (content : pystr) : list pystr :=
  filter nonempty_line (TextFile.lines content).

(** What an exception carries: its [args]. *)
Definition exc_args (e : exc) : list pystr :=
  match e with
  | LookupError msg => [msg]
  | OSError msg => [msg]
  | AttributeError attr => [attr]
  | PopenError => []
  | UnicodeEncodeError => []
  | UnicodeDecodeError => []
  end.

Fixpoint starts_with (prefix data : list byte) : bool :=
  match prefix, data with
  | [], _ => true
  | p :: prefix', d :: data' => Byte.eqb p d && starts_with prefix' data'
  | _ :: _, [] => false
  end.

Fixpoint occurs_in (needle data : list byte) : bool :=
  starts_with needle data
  || match data with
     | [] => false
     | _ :: data' => occurs_in needle data'
     end.

(** The exception carries [text]: one of its arguments contains it. *)
Definition carries (e : exc) (text : list byte) : bool :=
  existsb (fun arg => match encode_utf8 arg with
                      | Some data => occurs_in text data
                      | None => false
                      end) (exc_args e).

(** ** Sample collaborators *)

(** The bytes of a text that can be encoded. *)
Definition utf8 (s : pystr) : list byte :=
  match encode_utf8 s with
  | Some data => data
  | None => []
  end.

(** A process that read nothing and ended with [rc] after writing the text
    [out] and [err]. *)
Definition written (rc : Z) (out : pystr) (err : string) : completed := {|
  returncode := rc;
  stdout := utf8 out;
  stdin_consumed := 0;
  stderr := list_byte_of_string err
|}.

(** The line NLTK prints for a binary it found. *)
Definition sample_notice (name : pystr) (path_to_home : option pystr)
    (path : pystr) : pystr :=
  py "[Found " ++ name ++ py ": " ++ path ++ py "]".

(** A platform on which every binary is found and starts, and whose tool
    ignores its input: it exits with [rc] after writing [out] and [err].
    Stream 0 is a file, the other readable objects are in memory. *)
Definition script (rc : Z) (out : pystr) (err : string) : Env := {|
  _platform := py "linux";
  find_binary := fun name _ _ => Some (py "/usr/local/bin/" ++ name);
  found_notice := sample_notice;
  can_spawn := fun _ => true;
  has_fileno := fun h => Nat.eqb h 0;
  binary := fun _ _ => written rc out err;
  lines_before_decode_error := fun _ => 1%nat
|}.

(** The same platform with no TreeTagger installed. *)
Definition bare_platform : Env := {|
  _platform := py "linux";
  find_binary := fun _ _ _ => None;
  found_notice := sample_notice;
  can_spawn := fun _ => false;
  has_fileno := fun h => Nat.eqb h 0;
  binary := fun _ _ => written 127 [] "";
  lines_before_decode_error := fun _ => 1%nat
|}.

Definition no_streams : world := fun _ => [].

Definition sample_tagger : TreeTagger := {|
  _abbr_list := None;
  _treetagger_bin := Some (py "/usr/local/bin/tree-tagger-english")
|}.

Definition sample_tagger_abbr : TreeTagger := {|
  _abbr_list := Some (py "abbreviations.txt");
  _treetagger_bin := Some (py "/usr/local/bin/tree-tagger-english")
|}.

(** Three output lines, the second one empty. *)
Definition output_with_blank_line : pystr :=
  py "a" ++ [TAB] ++ py "DT" ++ [TAB] ++ py "a" ++ [LF]
  ++ [LF]
  ++ py "cat" ++ [TAB] ++ py "NN" ++ [TAB] ++ py "cat" ++ [LF].

(** The process of [script 1 [] "boom"] once it has ended. *)
Definition boom : completed := written 1 [] "boom".

(** The process of [script 0 output_with_blank_line ""] once it has ended. *)
Definition three_lines : completed := written 0 output_with_blank_line "".

(** A world in which the file behind stream [0] has one byte left to
    read. *)
Definition world_a : world :=
  fun h => match h with O => ["x"%byte] | _ => [] end.

(** A world in which the file behind stream [0] holds two lines, the
    second with a byte that is not UTF-8. *)
Definition world_garbled : world :=
  fun h => match h with
           | O => ["a"; "010"; "b"; "255"; "010"]%byte
           | _ => []
           end.

(** What [communicate] does for a call whose process was started with
    [argv]: the payload it is given, the completed process and the world
    left behind; nothing when the text cannot be encoded. *)
Definition feed (env : Env) (argv : list pystr) (sentences : sentences_arg)
    (w : world) : option (option (list byte) * completed * world) :=
  match normalize sentences with
  | IStr s =>
      match encode_utf8 s with
      | Some data => Some (Some data, binary env argv data, w)
      | None => None
      end
  | IStream h =>
      Some (None, binary env argv (w h),
            advanced w h (stdin_consumed (binary env argv (w h))))
  end.

Definition command_failed : exc := OSError (py "TreeTagger command failed!").

Definition answer_of (step : next_result * generator * world * list event)
  : next_result := fst (fst (fst step)).

Definition log_of (step : next_result * generator * world * list event)
  : list event := snd step.

(** What the caller of [tag] sees, read off the run of the tagger. *)
Definition observed_of (env : Env)
    (run : result (list byte) * world * list event) : observed :=
  match run with
  | (Ok content, _, log) =>
      {| records := List.map tagged_word_split (fst (read_outfile env content));
         raised := if snd (read_outfile env content)
                   then Some UnicodeDecodeError else None;
         effects := log |}
  | (Raise e, _, log) =>
      {| records := []; raised := Some e; effects := log |}
  end.

(** ** The rest of the module *)


(** The answer of the [n]-th further [next] on a generator, counting
    from 0. *)
Fixpoint nth_next (env : Env) (n : nat) (g : generator) (w : world)
  : next_result * generator * world * list event :=
  match n with
  | O => next env g w
  | S n' =>
      match next env g w with
      | (_, g', w', _) => nth_next env n' g' w'
      end
  end.

(** [sep.join(parts)] on [bytes]. *)
Fixpoint bjoin (sep : list byte) (parts : list (list byte)) : list byte :=
  match parts with
  | [] => []
  | [p] => p
  | p :: rest => p ++ sep ++ bjoin sep rest
  end.

(** The tokens encoded one by one; nothing when one of them cannot be. *)
Fixpoint encode_all (tokens : list pystr) : option (list (list byte)) :=
  match tokens with
  | [] => Some []
  | t :: rest =>
      match encode_utf8 t, encode_all rest with
      | Some b, Some bs => Some (b :: bs)
      | _, _ => None
      end
  end.

Definition is_print (e : event) : bool :=
  match e with
  | EvPrint _ => true
  | _ => false
  end.

(** A tool that reads all of its input and writes it back: the sample used
    where the output has to depend on the input.  Stream 0 is a file, the
    other readable objects are in memory. *)
Definition echo : Env := {|
  _platform := py "win32";
  find_binary := fun name _ _ => Some (py "C:/TreeTagger/bin/" ++ name);
  found_notice := sample_notice;
  can_spawn := fun _ => true;
  has_fileno := fun h => Nat.eqb h 0;
  binary := fun _ data =>
    {| returncode := 0;
       stdout := data;
       stdin_consumed := List.length data;
       stderr := [] |};
  lines_before_decode_error := fun _ => 1%nat
|}.

(** Rows of fields written the way the tool writes them: the fields of a
    row joined by tabs, every row ended by a newline. *)
Definition serialise (rows : list (list pystr)) : pystr :=
  List.concat (List.map (fun row => join [TAB] row ++ [LF]) rows).

(** A row that survives the decoder: it has a field, no field holds a tab,
    its line holds no line break and no whitespace at either end. *)
Definition well_formed_row (row : list pystr) : Prop :=
  row <> []
  /\ Forall (fun f => count TAB f = O) row
  /\ count LF (join [TAB] row) = O
  /\ count CR (join [TAB] row) = O
  /\ strip (join [TAB] row) = join [TAB] row.

(** A text with every newline written the Windows way. *)
Definition to_crlf (s : pystr) : pystr :=
  flat_map (fun c => if c =? LF then [CR; LF] else [c]) s.

Definition two_rows : list (list pystr) :=
  [[py "What"; py "WP"; py "What"]; [py "is"; py "VBZ"; py "be"]].

(** * Properties *)

(** ** Strings and lines *)

Lemma pystr_eqb_eq (a b : pystr) : pystr_eqb a b = true <-> a = b.
Proof.
  unfold pystr_eqb. destruct (list_eq_dec N.eq_dec a b); split; intro H;
    try reflexivity; try assumption; try contradiction; discriminate.
Qed.

Lemma split_not_nil (sep : codepoint) (s : pystr) : split sep s <> [].
Proof.
  destruct s as [|c t]; simpl; [discriminate|].
  destruct (c =? sep); [discriminate|].
  destruct (split sep t); discriminate.
Qed.


Lemma rstrip_app_space (s : pystr) (c : codepoint) :
  isspace c = true -> rstrip (s ++ [c]) = rstrip s.
Proof.
  intro Hc. induction s as [|d t IH]; simpl.
  - now rewrite Hc.
  - now rewrite IH.
Qed.

Lemma strip_app_space (s : pystr) (c : codepoint) :
  isspace c = true -> rstrip (lstrip (s ++ [c])) = rstrip (lstrip s).
Proof.
  intro Hc. induction s as [|d t IH]; simpl.
  - now rewrite Hc.
  - destruct (isspace d); [exact IH|].
    change (d :: t ++ [c]) with ((d :: t) ++ [c]).
    now apply rstrip_app_space.
Qed.

Example lines_of_mixed_terminators :
  TextFile.lines (py "a" ++ [CR; LF] ++ py "b" ++ [CR] ++ py "c")
  = [py "a" ++ [LF]; py "b" ++ [LF]; py "c"].
Proof. reflexivity. Qed.

Example split_of_full_line :
  tagged_word_split (py "What" ++ [TAB] ++ py "WP" ++ [TAB] ++ py "What" ++ [LF])
  = [py "What"; py "WP"; py "What"].
Proof. reflexivity. Qed.

Example split_of_line_without_lemma :
  tagged_word_split (py "swallow" ++ [TAB] ++ py "NN" ++ [TAB; LF])
  = [py "swallow"; py "NN"].
Proof. reflexivity. Qed.

Example decode_euro_sign :
  decode_utf8 ["a"; "226"; "130"; "172"]%byte = ([97; 8364], true).
Proof. reflexivity. Qed.

Example decode_stops_at_bad_byte :
  decode_utf8 ["a"; "010"; "b"; "255"; "010"]%byte = ([97; 10; 98], false).
Proof. reflexivity. Qed.

Example decode_refuses_surrogate :
  decode_utf8 ["a"; "237"; "160"; "128"]%byte = ([97], false).
Proof. reflexivity. Qed.

Example encode_u_umlaut :
  encode_utf8 (py "h" ++ [252] ++ py "bsch")
  = Some (["h"; "195"; "188"; "b"; "s"; "c"; "h"]%byte).
Proof. reflexivity. Qed.

Lemma split_without_sep (sep : codepoint) (f : pystr) :
  count sep f = O -> split sep f = [f].
Proof.
  induction f as [|c t IH]; simpl; [reflexivity|].
  destruct (c =? sep); [discriminate|]. intro H. now rewrite IH.
Qed.

Lemma split_app_sep (sep : codepoint) (f rest : pystr) :
  count sep f = O -> split sep (f ++ sep :: rest) = f :: split sep rest.
Proof.
  induction f as [|c t IH]; simpl.
  - now rewrite N.eqb_refl.
  - destruct (c =? sep); [discriminate|]. intro H. now rewrite IH.
Qed.

Lemma split_join (sep : codepoint) (fields : list pystr) :
  fields <> [] ->
  Forall (fun f => count sep f = O) fields ->
  split sep (join [sep] fields) = fields.
Proof.
  induction fields as [|f rest IH]; [congruence|].
  intros _ H. inversion H as [|f' rest' Hf Hrest]; subst.
  destruct rest as [|g rest].
  - simpl. now apply split_without_sep.
  - change (join [sep] (f :: g :: rest))
      with (f ++ sep :: join [sep] (g :: rest)).
    rewrite split_app_sep by exact Hf.
    now rewrite IH by (try discriminate; assumption).
Qed.

Lemma lstrip_spaces_app (pre s : pystr) :
  forallb isspace pre = true -> lstrip (pre ++ s) = lstrip s.
Proof.
  induction pre as [|c t IH]; simpl; [reflexivity|].
  intro H. apply andb_true_iff in H as [Hc Ht]. rewrite Hc. auto.
Qed.

Lemma strip_app_spaces (s suf : pystr) :
  forallb isspace suf = true -> strip (s ++ suf) = strip s.
Proof.
  induction suf as [|c suf IH] using rev_ind; intro H.
  - now rewrite app_nil_r.
  - rewrite forallb_app in H. apply andb_true_iff in H as [Hs Hc].
    simpl in Hc. rewrite andb_true_r in Hc.
    rewrite app_assoc. unfold strip.
    rewrite strip_app_space by exact Hc. now apply IH.
Qed.

Lemma count_app (c : codepoint) (a b : pystr) :
  count c (a ++ b) = (count c a + count c b)%nat.
Proof.
  induction a as [|d t IH]; simpl; [reflexivity|].
  destruct (d =? c); simpl; now rewrite IH.
Qed.

Lemma count_cons_zero (c d : codepoint) (t : pystr) :
  count c (d :: t) = O -> d <> c /\ count c t = O.
Proof.
  simpl. destruct (N.eqb_spec d c); [discriminate|]. now split.
Qed.

Lemma lstrip_count (c : codepoint) (s : pystr) :
  count c s = O -> count c (lstrip s) = O.
Proof.
  induction s as [|d t IH]; [reflexivity|].
  intro H. simpl lstrip. destruct (isspace d); [|exact H].
  apply count_cons_zero in H as [_ H]. auto.
Qed.

Lemma rstrip_count (c : codepoint) (s : pystr) :
  count c s = O -> count c (rstrip s) = O.
Proof.
  induction s as [|d t IH]; [reflexivity|].
  intro H. pose proof (count_cons_zero _ _ _ H) as [Hd Ht].
  specialize (IH Ht). simpl rstrip.
  destruct (rstrip t) as [|e t'] eqn:E.
  - destruct (isspace d); [reflexivity|].
    simpl. now destruct (N.eqb_spec d c).
  - change (count c (d :: e :: t') = O). simpl count at 1.
    now destruct (N.eqb_spec d c).
Qed.

Lemma strip_count (c : codepoint) (s : pystr) :
  count c s = O -> count c (strip s) = O.
Proof. intro H. unfold strip. now apply rstrip_count, lstrip_count. Qed.

Lemma split_count (c sep : codepoint) (s : pystr) :
  count c s = O -> Forall (fun f => count c f = O) (split sep s).
Proof.
  induction s as [|d t IH]; intro H.
  - repeat constructor.
  - apply count_cons_zero in H as [Hd Ht]. specialize (IH Ht). simpl.
    destruct (d =? sep); [constructor; [reflexivity|exact IH]|].
    destruct (split sep t) as [|f fs].
    + repeat constructor. simpl. now destruct (N.eqb_spec d c).
    + inversion IH; subst. constructor; [|assumption].
      simpl. now destruct (N.eqb_spec d c).
Qed.

Lemma split_no_sep (sep : codepoint) (s : pystr) :
  Forall (fun f => count sep f = O) (split sep s).
Proof.
  induction s as [|d t IH]; simpl; [repeat constructor|].
  destruct (N.eqb_spec d sep) as [->|Hd]; [constructor; [reflexivity|exact IH]|].
  destruct (split sep t) as [|f fs].
  - repeat constructor. simpl. now destruct (N.eqb_spec d sep).
  - inversion IH; subst. constructor; [|assumption].
    simpl. now destruct (N.eqb_spec d sep).
Qed.

Lemma rstrip_keeps_head (c : codepoint) (t : pystr) :
  isspace c = false -> exists t', rstrip (c :: t) = c :: t'.
Proof.
  intro Hc. simpl. destruct (rstrip t) as [|d t'].
  - rewrite Hc. now exists [].
  - now exists (d :: t').
Qed.

Lemma strip_head (s : pystr) :
  strip s = [] \/ exists c t, strip s = c :: t /\ isspace c = false.
Proof.
  unfold strip. induction s as [|c t IH]; [now left|]. simpl lstrip.
  destruct (isspace c) eqn:Hc; [exact IH|].
  right. destruct (rstrip_keeps_head c t Hc) as [t' Ht']. now exists c, t'.
Qed.

Lemma rstrip_last (s : pystr) :
  rstrip s = [] \/ exists t c, rstrip s = t ++ [c] /\ isspace c = false.
Proof.
  induction s as [|d t IH]; [now left|]. simpl.
  destruct IH as [->|(u & c & -> & Hc)].
  - destruct (isspace d) eqn:Hd; [now left|]. right. now exists [], d.
  - right. exists (d :: u), c. split; [|exact Hc].
    now destruct u.
Qed.

Lemma isspace_TAB_false (c : codepoint) : isspace c = false -> c <> TAB.
Proof. intros H ->. discriminate H. Qed.

Lemma split_head (sep c : codepoint) (t : pystr) :
  c <> sep -> exists f fs, split sep (c :: t) = (c :: f) :: fs.
Proof.
  intro H. simpl. destruct (N.eqb_spec c sep); [contradiction|].
  destruct (split sep t) as [|f fs]; [now exists [], []|now exists f, fs].
Qed.

Lemma split_last (sep c : codepoint) (t : pystr) :
  c <> sep -> exists fs f, split sep (t ++ [c]) = fs ++ [f ++ [c]].
Proof.
  intro H. induction t as [|d t (fs & f & IH)]; simpl.
  - destruct (N.eqb_spec c sep); [contradiction|]. now exists [], [].
  - rewrite IH. destruct (d =? sep).
    + now exists ([] :: fs), f.
    + destruct fs as [|g fs]; simpl.
      * now exists [], (d :: f).
      * now exists ((d :: g) :: fs), f.
Qed.

(** ** The decoder of the specification *)















(** ** The run of the tagger *)

Lemma In_firstn {A : Type} (n : nat) (l : list A) (x : A) :
  In x (firstn n l) -> In x l.
Proof.
  revert l. induction n as [|n IH]; intros [|y l] H; simpl in *;
    try contradiction.
  destruct H as [->|H]; [now left|right; now apply IH].
Qed.

Lemma nth_error_firstn_Some {A : Type} (k : nat) (l : list A) (i : nat)
    (x : A) :
  nth_error (firstn k l) i = Some x -> nth_error l i = Some x.
Proof.
  revert l i. induction k as [|k IH]; intros [|y l] [|i] H; simpl in *;
    try discriminate; [exact H|now apply IH].
Qed.

Lemma terminated_cons (c : codepoint) (l : pystr) :
  l <> [] -> TextFile.terminated (c :: l) = TextFile.terminated l.
Proof.
  intro Hne. unfold TextFile.terminated. simpl rev.
  destruct (rev l) as [|d r] eqn:E; [|reflexivity].
  apply (f_equal (@rev _)) in E. rewrite rev_involutive in E.
  simpl in E. contradiction.
Qed.

(** Only the last line of a file can be without its terminator. *)
Lemma keepends_terminated (s : pystr) :
  exists init lst,
    TextFile.keepends s = init ++ lst
    /\ forallb TextFile.terminated init = true
    /\ (List.length lst <= 1)%nat
    /\ Forall (fun l => l <> []) (init ++ lst).
Proof.
  induction s as [|c t (init & lst & E & Hi & Hl & Hne)].
  - exists [], []. repeat split; auto.
  - simpl. destruct (N.eqb_spec c LF) as [->|Hc].
    + exists ([LF] :: init), lst. rewrite E. repeat split; auto.
      simpl. constructor; [discriminate|exact Hne].
    + rewrite E. destruct init as [|i0 init].
      * destruct lst as [|l lst]; simpl.
        { exists [], [[c]]. repeat split; auto.
          repeat constructor. discriminate. }
        { destruct lst; [|simpl in Hl; lia].
          exists [], [c :: l]. repeat split; auto.
          repeat constructor. discriminate. }
      * simpl. exists ((c :: i0) :: init), lst.
        inversion Hne as [|? ? Hi0 Hrest]; subst.
        simpl in Hi. apply andb_true_iff in Hi as [H0 Hi].
        repeat split; auto.
        { simpl. rewrite terminated_cons by exact Hi0. now rewrite H0, Hi. }
        { simpl. constructor; [discriminate|exact Hrest]. }
Qed.

Lemma filter_all {A : Type} (f : A -> bool) (l : list A) :
  forallb f l = true -> filter f l = l.
Proof.
  induction l as [|x l IH]; simpl; [reflexivity|].
  intro H. apply andb_true_iff in H as [Hx Hl]. now rewrite Hx, IH.
Qed.

Lemma complete_lines_prefix (text : pystr) :
  exists k, TextFile.complete_lines text = firstn k (TextFile.lines text).
Proof.
  unfold TextFile.complete_lines, TextFile.lines.
  destruct (keepends_terminated (TextFile.universal_newlines text))
    as (init & lst & -> & Hi & Hl & _).
  rewrite filter_app, (filter_all _ _ Hi).
  destruct lst as [|l lst]; [exists (List.length init)|].
  - simpl. rewrite !app_nil_r. now rewrite firstn_all.
  - destruct lst; [|simpl in Hl; lia]. simpl.
    destruct (TextFile.terminated l).
    + exists (S (List.length init)).
      rewrite firstn_app, firstn_all2 by lia.
      replace (S (List.length init) - List.length init)%nat with 1%nat by lia.
      reflexivity.
    + exists (List.length init).
      rewrite firstn_app, firstn_all, Nat.sub_diag. reflexivity.
Qed.

Section Pipeline.

Variable env : Env.

Lemma run_tagger_unfold (self : TreeTagger) (sentences : sentences_arg)
    (w : world) :
  run_tagger env self sentences w =
  match _treetagger_bin self with
  | None => (Raise (AttributeError (py "_treetagger_bin")), w, [])
  | Some bin =>
      let argv := argument_vector bin (_abbr_list self) in
      let opened := EvPopen argv (infile_of (normalize sentences)) in
      if stdin_usable env (infile_of (normalize sentences))
         && can_spawn env argv then
        match feed env argv sentences w with
        | None => (Raise UnicodeEncodeError, w, [opened])
        | Some (input, done, w') =>
            if (returncode done =? 0)%Z
            then (Ok (stdout done), w', [opened; EvCommunicate input done])
            else (Raise command_failed, w',
                  [opened; EvCommunicate input done;
                   EvPrint (PBytes (stderr done))])
        end
      else (Raise PopenError, w, [opened])
  end.
Proof.
  unfold run_tagger, feed, get_treetagger_bin, argument_vector.
  destruct (_treetagger_bin self) as [bin|], (_abbr_list self) as [abbr|];
    try reflexivity;
    unfold bind, Popen, bind, emit; simpl;
    (destruct (stdin_usable env _ && can_spawn env _); [|reflexivity]);
    unfold ret; simpl;
    (destruct (normalize sentences) as [s|h]; simpl;
     [ unfold encode; destruct (encode_utf8 s) as [data|]; simpl;
       [|reflexivity] | ]);
    unfold ret; simpl;
    match goal with
    | |- context [ (returncode ?d =? 0)%Z ] =>
        destruct (returncode d =? 0)%Z; reflexivity
    end.
Qed.

Lemma next_tag (self : TreeTagger) (sentences : sentences_arg) (w : world) :
  next env (tag self sentences) w =
  match run_tagger env self sentences w with
  | (Ok content, w', log) =>
      (resume (fst (read_outfile env content))
         (snd (read_outfile env content)), w', log)
  | (Raise e, w', log) => (Raised e, Finished, w', log)
  end.
Proof. reflexivity. Qed.

Lemma iterate_suspended (rest : list pystr) (undecodable : bool) :
  forall fuel w, (List.length rest < fuel)%nat ->
    iterate env fuel (Suspended rest undecodable) w =
    Some ({| records := List.map tagged_word_split rest;
             raised := if undecodable then Some UnicodeDecodeError else None;
             effects := [] |}, w).
Proof.
  induction rest as [|line rest IH]; intros fuel w H;
    (destruct fuel as [|fuel]; [simpl in H; lia|]); simpl.
  - now destruct undecodable.
  - rewrite IH by (simpl in H; lia). reflexivity.
Qed.

Lemma tag_runs_from (self : TreeTagger) (sentences : sentences_arg)
    (w : world) :
  runs_from env (tag self sentences) w
    (observed_of env (run_tagger env self sentences w))
    (snd (fst (run_tagger env self sentences w))).
Proof.
  unfold runs_from.
  destruct (run_tagger env self sentences w) as [[[content|e] w'] log] eqn:E.
  - exists (S (S (List.length (fst (read_outfile env content))))).
    intros fuel H. destruct fuel as [|fuel]; [lia|].
    cbn [iterate]. rewrite next_tag, E. cbn [observed_of fst snd].
    destruct (read_outfile env content) as [outfile undecodable].
    cbn [fst snd] in *.
    destruct outfile as [|line rest]; cbn [resume].
    + now destruct undecodable.
    + rewrite iterate_suspended by (simpl in H; lia).
      cbn [records raised effects List.map]. now rewrite app_nil_r.
  - exists 1%nat. intros fuel H. destruct fuel as [|fuel]; [lia|].
    cbn [iterate]. rewrite next_tag, E. reflexivity.
Qed.

Lemma tag_runs_to (self : TreeTagger) (sentences : sentences_arg) (w : world) :
  runs_to env (tag self sentences) w
    (observed_of env (run_tagger env self sentences w)).
Proof.
  destruct (tag_runs_from self sentences w) as [n H].
  exists n. eexists. exact H.
Qed.

(** A call that ran the process did so with the instance's binary, after a
    successful [Popen], on the payload [feed] prepares. *)
Lemma exited_inv (self : TreeTagger) (sentences : sentences_arg) (w : world)
    (done : completed) :
  exited env self sentences w done ->
  exists bin input w',
    _treetagger_bin self = Some bin
    /\ stdin_usable env (infile_of (normalize sentences))
       && can_spawn env (argument_vector bin (_abbr_list self)) = true
    /\ feed env (argument_vector bin (_abbr_list self)) sentences w
       = Some (input, done, w').
Proof.
  intros [input Hin]. rewrite next_tag, run_tagger_unfold in Hin.
  destruct (_treetagger_bin self) as [bin|]; [|contradiction].
  exists bin. cbv zeta in Hin.
  destruct (stdin_usable env _ && can_spawn env _) eqn:Hs.
  - destruct (feed env _ sentences w) as [[[input' done'] w']|] eqn:Hf.
    + exists input', w'. repeat split.
      destruct (returncode done' =? 0)%Z; simpl in Hin;
        repeat (destruct Hin as [Hin|Hin]; try discriminate Hin;
                try contradiction);
        now inversion Hin.
    + simpl in Hin. destruct Hin as [Hin|[]]. discriminate Hin.
  - simpl in Hin. destruct Hin as [Hin|[]]. discriminate Hin.
Qed.

(** The run of a call whose process completed as [done]. *)
Lemma exited_run (self : TreeTagger) (sentences : sentences_arg) (w : world)
    (done : completed) :
  exited env self sentences w done ->
  exists opened input w',
    run_tagger env self sentences w =
    if (returncode done =? 0)%Z
    then (Ok (stdout done), w', [opened; EvCommunicate input done])
    else (Raise command_failed, w',
          [opened; EvCommunicate input done; EvPrint (PBytes (stderr done))]).
Proof.
  intro H. destruct (exited_inv _ _ _ _ H) as (bin & input & w' & Hb & Hs & Hf).
  rewrite run_tagger_unfold, Hb. cbv zeta. rewrite Hs, Hf.
  eexists _, input, w'. reflexivity.
Qed.

(** The reader on an output that is valid UTF-8. *)
Lemma read_outfile_text (done : completed) (text : pystr) :
  stdout_text done = Some text ->
  read_outfile env (stdout done) = (TextFile.lines text, false).
Proof.
  unfold stdout_text, read_outfile.
  destruct (decode_utf8 (stdout done)) as [t [|]]; [|discriminate].
  now intros [= ->].
Qed.

(** Whatever the output, the reader hands out lines of the text that
    decodes. *)
Lemma read_outfile_In (content : list byte) (line : pystr) :
  In line (fst (read_outfile env content)) ->
  In line (TextFile.lines (fst (decode_utf8 content))).
Proof.
  unfold read_outfile.
  destruct (decode_utf8 content) as [t [|]]; cbn [fst]; [trivial|].
  intro H. apply In_firstn in H.
  unfold TextFile.complete_lines in H. now apply filter_In in H.
Qed.

(** The lines the reader hands out are the first lines of the text that
    decodes. *)
Lemma read_outfile_prefix (content : list byte) :
  exists k,
    fst (read_outfile env content)
    = firstn k (TextFile.lines (fst (decode_utf8 content))).
Proof.
  unfold read_outfile.
  destruct (decode_utf8 content) as [t [|]]; cbn [fst].
  - exists (List.length (TextFile.lines t)). now rewrite firstn_all.
  - destruct (complete_lines_prefix t) as [k ->].
    eexists. apply firstn_firstn.
Qed.

End Pipeline.
(** ** The constructor *)

Lemma language_known_In (language : pystr) :
  language_known language = true <-> In language _treetagger_languages.
Proof.
  unfold language_known. rewrite existsb_exists. split.
  - intros [x [Hx Heq]]. apply pystr_eqb_eq in Heq. now subst.
  - intro H. exists language. split; [exact H|]. now apply pystr_eqb_eq.
Qed.

Section Construction.

Variable env : Env.
Variables (path_to_home : option pystr) (verbose : bool)
          (abbreviation_list : option pystr).

(** C6. A language outside [_treetagger_languages] makes [__init__] raise
    [LookupError('Language not in language list!')] and nothing else
    happens, so no instance exists; a language of the list never raises:
    [__init__] returns an instance, whatever [find_binary] answers. *)
Theorem init_checks_language (language : pystr) (w : world) :
  (~ In language _treetagger_languages ->
     __init__ env path_to_home language verbose abbreviation_list w
     = (Raise (LookupError (py "Language not in language list!")), w, []))
  /\ (In language _treetagger_languages ->
        exists self log,
          __init__ env path_to_home language verbose abbreviation_list w
          = (Ok self, w, log)).
Proof.
  unfold __init__. split; intro H.
  - destruct (language_known language) eqn:E; [|reflexivity].
    apply language_known_In in E. contradiction.
  - apply language_known_In in H. rewrite H.
    destruct (find_binary env _ path_to_home verbose) as [path|];
      [destruct verbose|]; eexists; eexists; reflexivity.
Qed.

(** C7. When [find_binary] finds nothing for a supported language,
    [__init__] does not raise: it prints its warning and returns an
    instance without [_treetagger_bin].  Every [tag] on that instance fails
    as soon as it is iterated, with [AttributeError], before any process is
    started. *)
Theorem init_survives_missing_binary (language : pystr) (w : world) :
  In language _treetagger_languages ->
  find_binary env (treetagger_bin_name env language) path_to_home verbose
    = None ->
  exists self,
    __init__ env path_to_home language verbose abbreviation_list w
    = (Ok self, w,
       [EvPrint (PStr (py "NLTK was unable to find the TreeTagger bin!"))])
    /\ forall sentences w',
         next env (tag self sentences) w'
         = (Raised (AttributeError (py "_treetagger_bin")), Finished, w', []).
Proof.
  intros Hl Hf. apply language_known_In in Hl.
  unfold __init__. rewrite Hl, Hf.
  eexists. split; [reflexivity|].
  intros sentences w'. rewrite next_tag, run_tagger_unfold. reflexivity.
Qed.

End Construction.

(** ** The generator *)

Section Tagging.

Variable env : Env.
Variable self : TreeTagger.

(** C1. When the external process ends with a non-zero status, the first
    [next] on the generator raises [OSError]: iterating the call yields no
    record at all and ends with that error. *)
Theorem failed_exit_yields_nothing (sentences : sentences_arg) (w : world)
    (done : completed) :
  exited env self sentences w done ->
  returncode done <> 0%Z ->
  answer_of (next env (tag self sentences) w) = Raised command_failed
  /\ exists o,
       runs_to env (tag self sentences) w o
       /\ records o = []
       /\ raised o = Some command_failed.
Proof.
  intros H Hrc. apply Z.eqb_neq in Hrc.
  destruct (exited_run _ _ _ _ _ H) as (opened & input & w' & E).
  rewrite Hrc in E. split.
  - rewrite next_tag, E. reflexivity.
  - eexists. split; [apply tag_runs_to|]. rewrite E. split; reflexivity.
Qed.

(** C2, as the code has it. When the external process ends with a non-zero
    status, the exception raised is always [OSError('TreeTagger command
    failed!')], whatever the process wrote; the captured standard error is
    handed to [print] just before the exception is raised. *)
Theorem failed_exit_prints_stderr (sentences : sentences_arg) (w : world)
    (done : completed) :
  exited env self sentences w done ->
  returncode done <> 0%Z ->
  answer_of (next env (tag self sentences) w)
    = Raised (OSError (py "TreeTagger command failed!"))
  /\ exists before,
       log_of (next env (tag self sentences) w)
       = before ++ [EvPrint (PBytes (stderr done))].
Proof.
  intros H Hrc. apply Z.eqb_neq in Hrc.
  destruct (exited_run _ _ _ _ _ H) as (opened & input & w' & E).
  rewrite Hrc in E. rewrite next_tag, E. split; [reflexivity|].
  exists [opened; EvCommunicate input done]. reflexivity.
Qed.

(** C3, as the code has it. After a successful run whose output is valid
    UTF-8, the call ends without exception and has yielded one record per
    line of the output, the empty lines included.  After a successful run
    whose output is not valid UTF-8, the call ends with
    [UnicodeDecodeError], having yielded at most one record per line of
    the text that decodes. *)
Theorem one_record_per_line (sentences : sentences_arg) (w : world)
    (done : completed) :
  exited env self sentences w done ->
  returncode done = 0%Z ->
  exists o,
    runs_to env (tag self sentences) w o
    /\ (forall text,
          stdout_text done = Some text ->
          raised o = None
          /\ List.length (records o) = List.length (TextFile.lines text))
    /\ (stdout_text done = None ->
        raised o = Some UnicodeDecodeError
        /\ (List.length (records o)
            <= List.length (TextFile.lines (stdout_decoded done)))%nat).
Proof.
  intros H Hrc. apply Z.eqb_eq in Hrc.
  destruct (exited_run _ _ _ _ _ H) as (opened & input & w' & E).
  rewrite Hrc in E.
  eexists. split; [apply tag_runs_to|]. rewrite E.
  cbn [observed_of records raised]. split.
  - intros text Ht. rewrite (read_outfile_text env done text Ht).
    cbn [fst snd]. split; [reflexivity|]. apply length_map.
  - intro Hn. split.
    + unfold stdout_text in Hn. unfold read_outfile.
      destruct (decode_utf8 (stdout done)) as [t [|]]; [discriminate|].
      reflexivity.
    + destruct (read_outfile_prefix env (stdout done)) as [k Hk].
      rewrite length_map, Hk, length_firstn. unfold stdout_decoded. lia.
Qed.

(** C4. A list of tokens is normalised to the same value as the text made
    of the tokens joined by a newline, so the two calls behave alike at
    every step: same [Popen], same bytes given to [communicate], same
    records. *)
Theorem token_list_same_as_joined_text (tokens : list pystr) :
  normalize (TokenList tokens) = normalize (Text (join [LF] tokens))
  /\ (forall w,
        next env (tag self (TokenList tokens)) w
        = next env (tag self (Text (join [LF] tokens))) w)
  /\ (forall fuel w,
        iterate env fuel (tag self (TokenList tokens)) w
        = iterate env fuel (tag self (Text (join [LF] tokens))) w).
Proof.
  split; [reflexivity|]. split; [reflexivity|].
  intros fuel w. destruct fuel; reflexivity.
Qed.



(** C8. On an instance whose binary was found, a call starts exactly one
    process; its argument vector is the binary alone when no abbreviation
    list was configured, and the binary, ["-a"] and the abbreviation list
    otherwise. *)
Theorem popen_gets_binary_and_abbreviations (sentences : sentences_arg)
    (w : world) (bin : pystr) :
  _treetagger_bin self = Some bin ->
  exists o,
    runs_to env (tag self sentences) w o
    /\ (_abbr_list self = None -> popen_calls (effects o) = [[bin]])
    /\ (forall abbr, _abbr_list self = Some abbr ->
          popen_calls (effects o) = [[bin; py "-a"; abbr]]).
Proof.
  intro Hb. eexists. split; [apply tag_runs_to|].
  assert (Hp : popen_calls
                 (effects (observed_of env (run_tagger env self sentences w)))
               = [argument_vector bin (_abbr_list self)]).
  { rewrite run_tagger_unfold, Hb. cbv zeta.
    destruct (stdin_usable env _ && can_spawn env _); [|reflexivity].
    destruct (feed env _ sentences w) as [[[input done] w']|]; [|reflexivity].
    destruct (returncode done =? 0)%Z; reflexivity. }
  split.
  - intro Ha. now rewrite Hp, Ha.
  - intros abbr Ha. now rewrite Hp, Ha.
Qed.

(** A call on a token list or a text leaves every stream where it was. *)
Lemma run_tagger_world (sentences : sentences_arg) (w : world) :
  is_stream sentences = false ->
  snd (fst (run_tagger env self sentences w)) = w.
Proof.
  intro Hs. rewrite run_tagger_unfold.
  destruct (_treetagger_bin self) as [bin|]; [|reflexivity]. cbv zeta.
  destruct (stdin_usable env _ && can_spawn env _); [|reflexivity].
  unfold feed.
  destruct sentences as [tokens|s|h]; [| |discriminate Hs];
    cbn [normalize];
    (destruct (encode_utf8 _); [|reflexivity]);
    destruct (returncode _ =? 0)%Z; reflexivity.
Qed.

(** C9, as the code has it. For a token list or a text, two calls in
    succession on the same instance, the second starting in the world the
    first has left, show the caller the same records in the same order,
    the same outcome and the same interactions with the process. *)
Theorem successive_calls_same_records (sentences : sentences_arg)
    (w : world) :
  is_stream sentences = false ->
  exists o w1 w2,
    runs_from env (tag self sentences) w o w1
    /\ runs_from env (tag self sentences) w1 o w2.
Proof.
  intro Hs.
  exists (observed_of env (run_tagger env self sentences w)), w, w.
  pose proof (tag_runs_from env self sentences w) as H.
  rewrite (run_tagger_world sentences w Hs) in H. split; exact H.
Qed.

(** C10. No record is ever the empty list.  A line that is empty once
    stripped is not skipped: after a successful run, the record at a
    position is the decoding of the line of the output at that position,
    the list of one empty string when that line is blank; and when the
    output is valid UTF-8 every blank line has its record. *)
Theorem records_have_a_field (sentences : sentences_arg) (w : world) :
  exists o,
    runs_to env (tag self sentences) w o
    /\ Forall (fun fields => fields <> []) (records o)
    /\ (forall done text i line,
          exited env self sentences w done ->
          returncode done = 0%Z ->
          stdout_text done = Some text ->
          nth_error (TextFile.lines text) i = Some line ->
          strip line = [] ->
          nth_error (records o) i = Some [[]])
    /\ (forall done i fields,
          exited env self sentences w done ->
          returncode done = 0%Z ->
          nth_error (records o) i = Some fields ->
          exists line,
            nth_error (TextFile.lines (stdout_decoded done)) i = Some line
            /\ (strip line = [] -> fields = [[]])).
Proof.
  eexists. split; [apply tag_runs_to|]. split; [|split].
  - destruct (run_tagger env self sentences w) as [[[content|e] w'] log];
      cbn [observed_of records]; [|constructor].
    apply Forall_forall. intros fields Hin.
    apply in_map_iff in Hin as [line [<- _]]. apply split_not_nil.
  - intros done text i line H Hrc Ht Hi Hs. apply Z.eqb_eq in Hrc.
    destruct (exited_run _ _ _ _ _ H) as (opened & input & w' & E).
    rewrite Hrc in E. rewrite E. cbn [observed_of records].
    rewrite (read_outfile_text env done text Ht). cbn [fst].
    rewrite nth_error_map, Hi. cbn [option_map].
    unfold tagged_word_split. now rewrite Hs.
  - intros done i fields H Hrc Hi. apply Z.eqb_eq in Hrc.
    destruct (exited_run _ _ _ _ _ H) as (opened & input & w' & E).
    rewrite Hrc in E. rewrite E in Hi. cbn [observed_of records] in Hi.
    destruct (read_outfile_prefix env (stdout done)) as [k Hk].
    rewrite Hk, nth_error_map in Hi. unfold stdout_decoded.
    destruct (nth_error (firstn k _) i) as [line|] eqn:El; [|discriminate].
    apply nth_error_firstn_Some in El.
    exists line. split; [exact El|].
    injection Hi as <-. intro Hs. unfold tagged_word_split. now rewrite Hs.
Qed.

End Tagging.
(** * The properties on the sample collaborators *)

Lemma boom_exited :
  exited (script 1 [] "boom") sample_tagger (TokenList [py "x"]) no_streams
    boom.
Proof. exists (Some ["x"%byte]). simpl. right. left. reflexivity. Defined.

Lemma three_lines_exited :
  exited (script 0 output_with_blank_line "") sample_tagger
    (TokenList [py "a"; py "cat"]) no_streams three_lines.
Proof.
  exists (Some (list_byte_of_string "a" ++ ["010"%byte]
                ++ list_byte_of_string "cat")).
  simpl. right. left. reflexivity.
Defined.

Lemma failed_exit_yields_nothing_witness :
  exited (script 1 [] "boom") sample_tagger (TokenList [py "x"]) no_streams
    boom
  /\ returncode boom <> 0%Z
  /\ answer_of (next (script 1 [] "boom")
                  (tag sample_tagger (TokenList [py "x"])) no_streams)
     = Raised command_failed
  /\ exists o,
       runs_to (script 1 [] "boom") (tag sample_tagger (TokenList [py "x"]))
         no_streams o
       /\ records o = []
       /\ raised o = Some command_failed.
Proof.
  assert (Hrc : returncode boom <> 0%Z) by (simpl; lia).
  split; [exact boom_exited|]. split; [exact Hrc|].
  exact (failed_exit_yields_nothing (script 1 [] "boom") sample_tagger
           (TokenList [py "x"]) no_streams boom boom_exited Hrc).
Defined.

(** C2 fails on the scenario of the specification: the script exits with 1
    after writing "boom" to its standard error, and the exception raised by
    [tag(["x"])] has no argument in which "boom" occurs. *)
Lemma boom_is_not_in_the_exception :
  exited (script 1 [] "boom") sample_tagger (TokenList [py "x"]) no_streams
    boom
  /\ returncode boom <> 0%Z
  /\ stderr boom = list_byte_of_string "boom"
  /\ exists e,
       answer_of (next (script 1 [] "boom")
                    (tag sample_tagger (TokenList [py "x"])) no_streams)
       = Raised e
       /\ carries e (stderr boom) = false.
Proof.
  split; [exact boom_exited|]. split; [simpl; lia|]. split; [reflexivity|].
  eexists. split; reflexivity.
Qed.

Lemma failed_exit_prints_stderr_witness :
  exited (script 1 [] "boom") sample_tagger (TokenList [py "x"]) no_streams
    boom
  /\ returncode boom <> 0%Z
  /\ answer_of (next (script 1 [] "boom")
                  (tag sample_tagger (TokenList [py "x"])) no_streams)
     = Raised (OSError (py "TreeTagger command failed!"))
  /\ exists before,
       log_of (next (script 1 [] "boom")
                 (tag sample_tagger (TokenList [py "x"])) no_streams)
       = before ++ [EvPrint (PBytes (stderr boom))].
Proof.
  assert (Hrc : returncode boom <> 0%Z) by (simpl; lia).
  split; [exact boom_exited|]. split; [exact Hrc|].
  exact (failed_exit_prints_stderr (script 1 [] "boom") sample_tagger
           (TokenList [py "x"]) no_streams boom boom_exited Hrc).
Defined.

(** C3 fails when the tool writes an empty line: the run succeeds, the
    output has two non-empty lines, and three records are yielded. *)
Lemma blank_line_is_counted :
  exited (script 0 output_with_blank_line "") sample_tagger
    (TokenList [py "a"; py "cat"]) no_streams three_lines
  /\ returncode three_lines = 0%Z
  /\ stdout_text three_lines = Some output_with_blank_line
  /\ exists o w',
       iterate (script 0 output_with_blank_line "") 8
         (tag sample_tagger (TokenList [py "a"; py "cat"])) no_streams
       = Some (o, w')
       /\ raised o = None
       /\ List.length (records o) = 3%nat
       /\ List.length (nonempty_lines output_with_blank_line) = 2%nat
       /\ List.length (records o)
          <> List.length (nonempty_lines output_with_blank_line).
Proof.
  split; [exact three_lines_exited|]. split; [reflexivity|].
  split; [reflexivity|].
  eexists. eexists. split; [reflexivity|].
  repeat split. simpl. discriminate.
Qed.

Lemma garbled_exited :
  exited echo sample_tagger (Readable 0%nat) world_garbled
    (binary echo [py "/usr/local/bin/tree-tagger-english"]
       (world_garbled 0%nat)).
Proof. eexists. simpl. right. left. reflexivity. Defined.

Lemma one_record_per_line_witness :
  exited (script 0 output_with_blank_line "") sample_tagger
    (TokenList [py "a"; py "cat"]) no_streams three_lines
  /\ returncode three_lines = 0%Z
  /\ stdout_text three_lines = Some output_with_blank_line
  /\ (exists o,
        runs_to (script 0 output_with_blank_line "")
          (tag sample_tagger (TokenList [py "a"; py "cat"])) no_streams o
        /\ raised o = None
        /\ List.length (records o)
           = List.length (TextFile.lines output_with_blank_line))
  /\ exists o,
       runs_to echo (tag sample_tagger (Readable 0%nat)) world_garbled o
       /\ raised o = Some UnicodeDecodeError
       /\ (List.length (records o) <= 2)%nat.
Proof.
  split; [exact three_lines_exited|]. split; [reflexivity|].
  split; [reflexivity|]. split.
  - destruct (one_record_per_line (script 0 output_with_blank_line "")
                sample_tagger (TokenList [py "a"; py "cat"]) no_streams
                three_lines three_lines_exited eq_refl)
      as (o & Hr & Hv & _).
    exists o. split; [exact Hr|]. exact (Hv output_with_blank_line eq_refl).
  - destruct (one_record_per_line echo sample_tagger (Readable 0%nat)
                world_garbled _ garbled_exited eq_refl)
      as (o & Hr & _ & Hu).
    exists o. split; [exact Hr|]. exact (Hu eq_refl).
Defined.


Lemma klingon_unknown : ~ In (py "klingon") _treetagger_languages.
Proof. intro H. apply language_known_In in H. discriminate H. Defined.

Lemma english_known : In (py "english") _treetagger_languages.
Proof. apply language_known_In. reflexivity. Defined.

Lemma init_checks_language_witness :
  ~ In (py "klingon") _treetagger_languages
  /\ In (py "english") _treetagger_languages
  /\ __init__ (script 0 [] "") None (py "klingon") false None no_streams
     = (Raise (LookupError (py "Language not in language list!")),
        no_streams, [])
  /\ exists self log,
       __init__ (script 0 [] "") None (py "english") false None no_streams
       = (Ok self, no_streams, log).
Proof.
  split; [exact klingon_unknown|]. split; [exact english_known|]. split.
  - exact (proj1 (init_checks_language (script 0 [] "") None false None
                    (py "klingon") no_streams) klingon_unknown).
  - exact (proj2 (init_checks_language (script 0 [] "") None false None
                    (py "english") no_streams) english_known).
Defined.

Lemma init_survives_missing_binary_witness :
  In (py "english") _treetagger_languages
  /\ find_binary bare_platform (treetagger_bin_name bare_platform (py "english"))
       None false = None
  /\ exists self,
       __init__ bare_platform None (py "english") false None no_streams
       = (Ok self, no_streams,
          [EvPrint (PStr (py "NLTK was unable to find the TreeTagger bin!"))])
       /\ forall sentences w',
            next bare_platform (tag self sentences) w'
            = (Raised (AttributeError (py "_treetagger_bin")), Finished, w',
               []).
Proof.
  split; [exact english_known|]. split; [reflexivity|].
  exact (init_survives_missing_binary bare_platform None false None
           (py "english") no_streams english_known eq_refl).
Defined.

Lemma popen_gets_binary_and_abbreviations_witness :
  _treetagger_bin sample_tagger_abbr
    = Some (py "/usr/local/bin/tree-tagger-english")
  /\ exists o,
       runs_to (script 0 output_with_blank_line "")
         (tag sample_tagger_abbr (Text (py "a cat"))) no_streams o
       /\ popen_calls (effects o)
          = [[py "/usr/local/bin/tree-tagger-english"; py "-a";
              py "abbreviations.txt"]].
Proof.
  split; [reflexivity|].
  destruct (popen_gets_binary_and_abbreviations
              (script 0 output_with_blank_line "") sample_tagger_abbr
              (Text (py "a cat")) no_streams
              (py "/usr/local/bin/tree-tagger-english") eq_refl)
    as (o & Hr & _ & Ha).
  exists o. split; [exact Hr|]. exact (Ha (py "abbreviations.txt") eq_refl).
Defined.

(** C9 fails for a readable stream: with a tool that writes back what it
    reads, a first call on a file holding one byte yields one record and
    leaves the file at its end, and a second call on the same file yields
    none. *)
Lemma second_call_on_a_stream_differs :
  exists o1 w1 o2 w2,
    iterate echo 8 (tag sample_tagger (Readable 0%nat)) world_a = Some (o1, w1)
    /\ iterate echo 8 (tag sample_tagger (Readable 0%nat)) w1 = Some (o2, w2)
    /\ raised o1 = None
    /\ raised o2 = None
    /\ records o1 = [[py "x"]]
    /\ records o2 = []
    /\ records o1 <> records o2.
Proof.
  eexists. eexists. eexists. eexists.
  split; [reflexivity|]. split; [reflexivity|].
  repeat split. discriminate.
Qed.

Lemma successive_calls_same_records_witness :
  is_stream (TokenList [py "a"; py "cat"]) = false
  /\ exists o w1 w2,
       runs_from echo (tag sample_tagger (TokenList [py "a"; py "cat"]))
         world_a o w1
       /\ runs_from echo (tag sample_tagger (TokenList [py "a"; py "cat"]))
            w1 o w2.
Proof.
  split; [reflexivity|].
  exact (successive_calls_same_records echo sample_tagger
           (TokenList [py "a"; py "cat"]) world_a eq_refl).
Defined.

Lemma records_have_a_field_witness :
  exists o,
    runs_to (script 0 output_with_blank_line "")
      (tag sample_tagger (TokenList [py "a"; py "cat"])) no_streams o
    /\ Forall (fun fields => fields <> []) (records o)
    /\ nth_error (records o) 1 = Some [[]].
Proof.
  destruct (records_have_a_field (script 0 output_with_blank_line "")
              sample_tagger (TokenList [py "a"; py "cat"]) no_streams)
    as (o & Hr & Hf & Hb & _).
  exists o. split; [exact Hr|]. split; [exact Hf|].
  exact (Hb three_lines output_with_blank_line 1%nat [LF]
           three_lines_exited eq_refl eq_refl eq_refl eq_refl).
Defined.

(** * Further properties of the module *)

(** ** Fields, lines and payloads *)

(** X1. A line made of fields joined by tabs and ended by a newline is
    decoded into exactly those fields, provided there is at least one
    field, no field contains a tab, and the joined line neither starts nor
    ends with whitespace. *)
Theorem well_formed_line_gives_its_fields (fields : list pystr) :
  fields <> [] ->
  Forall (fun f => count TAB f = O) fields ->
  strip (join [TAB] fields) = join [TAB] fields ->
  tagged_word_split (join [TAB] fields ++ [LF]) = fields.
Proof.
  intros Hne Hf Hs. unfold tagged_word_split.
  rewrite strip_app_spaces by reflexivity.
  rewrite Hs. now apply split_join.
Qed.

(** X2. Whitespace around a line, tabs included, never makes fields: a line
    decodes as the same line without its leading and trailing whitespace,
    so empty fields at either end of a line are lost. *)
Theorem surrounding_whitespace_makes_no_field (pre s suf : pystr) :
  forallb isspace pre = true ->
  forallb isspace suf = true ->
  tagged_word_split (pre ++ s ++ suf) = tagged_word_split s.
Proof.
  intros Hp Hs. unfold tagged_word_split.
  rewrite app_assoc, strip_app_spaces by exact Hs.
  unfold strip. now rewrite lstrip_spaces_app.
Qed.

(** X3. A non-empty list of tokens without newline is turned into a text
    with exactly one token per line: cutting [_input] at the newlines gives
    the list back. *)
Theorem tokens_are_one_per_line (tokens : list pystr) :
  tokens <> [] ->
  Forall (fun t => count LF t = O) tokens ->
  exists s,
    normalize (TokenList tokens) = IStr s /\ split LF s = tokens.
Proof.
  intros Hne Hf. eexists. split; [reflexivity|]. now apply split_join.
Qed.

Lemma encode_utf8_app (a b : pystr) :
  encode_utf8 (a ++ b) =
  match encode_utf8 a, encode_utf8 b with
  | Some x, Some y => Some (x ++ y)
  | _, _ => None
  end.
Proof.
  induction a as [|c t IH]; simpl.
  - now destruct (encode_utf8 b).
  - rewrite IH. destruct (utf8_char c) as [bs|]; [|reflexivity].
    destruct (encode_utf8 t) as [x|]; [|reflexivity].
    destruct (encode_utf8 b) as [y|]; [|reflexivity].
    now rewrite app_assoc.
Qed.

Lemma encode_join (tokens : list pystr) :
  encode_utf8 (join [LF] tokens)
  = option_map (bjoin ["010"%byte]) (encode_all tokens).
Proof.
  induction tokens as [|t rest IH]; [reflexivity|].
  destruct rest as [|u rest].
  - simpl. destruct (encode_utf8 t); reflexivity.
  - change (join [LF] (t :: u :: rest))
      with (t ++ [LF] ++ join [LF] (u :: rest)).
    rewrite !encode_utf8_app, IH.
    change (encode_all (t :: u :: rest))
      with (match encode_utf8 t, encode_all (u :: rest) with
            | Some b, Some bs => Some (b :: bs)
            | _, _ => None
            end).
    destruct (encode_utf8 t) as [b|]; [|reflexivity].
    destruct (encode_all (u :: rest)) as [bs|] eqn:E; [|reflexivity].
    simpl. destruct bs as [|b' bs]; [|reflexivity].
    simpl in E. destruct (encode_utf8 u); [|discriminate].
    destruct (encode_all rest); discriminate.
Qed.

Lemma utf8_char_surrogate (c : codepoint) :
  55296 <= c <= 57343 -> utf8_char c = None.
Proof.
  intros [Hlo Hhi]. unfold utf8_char.
  destruct (N.ltb_spec c 128); [lia|].
  destruct (N.ltb_spec c 2048); [lia|].
  destruct (N.ltb_spec c 65536); [|lia].
  destruct (N.leb_spec 55296 c); [|lia].
  destruct (N.leb_spec c 57343); [reflexivity|lia].
Qed.

Lemma encode_utf8_stuck (s : pystr) (c : codepoint) :
  In c s -> utf8_char c = None -> encode_utf8 s = None.
Proof.
  induction s as [|d t IH]; simpl; [contradiction|].
  intros [->|Hin] Hc.
  - now rewrite Hc.
  - rewrite (IH Hin Hc). now destruct (utf8_char d).
Qed.

Lemma keepends_nil (s : pystr) : TextFile.keepends s = [] <-> s = [].
Proof.
  split; [|now intros ->].
  destruct s as [|c t]; [reflexivity|]. simpl.
  destruct (c =? LF); [discriminate|].
  destruct (TextFile.keepends t); discriminate.
Qed.

Lemma universal_newlines_nil (s : pystr) :
  TextFile.universal_newlines s = [] <-> s = [].
Proof.
  split; [|now intros ->].
  destruct s as [|c t]; [reflexivity|]. simpl.
  destruct (c =? CR); [|discriminate].
  destruct t as [|d t']; [discriminate|].
  destruct (d =? LF) eqn:E; [|discriminate].
  apply N.eqb_eq in E. subst d. simpl. discriminate.
Qed.

(** ** The constructor and the calls it prepares *)

Section Composition.

Variable env : Env.

(** X4. For a list of tokens, the bytes given to the process are the UTF-8
    encodings of the tokens joined by the single byte 0x0A, without a
    trailing newline; when one token cannot be encoded, nothing is given to
    the process at all. *)
Theorem token_payload_is_joined_encodings (self : TreeTagger)
    (tokens : list pystr) (w : world) (bin : pystr) :
  _treetagger_bin self = Some bin ->
  can_spawn env (argument_vector bin (_abbr_list self)) = true ->
  payloads (log_of (next env (tag self (TokenList tokens)) w))
  = match encode_all tokens with
    | Some encoded => [Some (bjoin ["010"%byte] encoded)]
    | None => []
    end.
Proof.
  intros Hb Hs. rewrite next_tag, run_tagger_unfold, Hb. cbv zeta.
  cbn [normalize infile_of stdin_usable andb].
  rewrite Hs. unfold feed. cbn [normalize]. rewrite encode_join.
  destruct (encode_all tokens) as [encoded|]; cbn [option_map]; [|reflexivity].
  destruct (returncode _ =? 0)%Z; reflexivity.
Qed.

(** X5. A text holding a surrogate code point cannot be encoded: the call
    raises [UnicodeEncodeError] at its first [next], after the binary has
    been started by [Popen] and without [communicate] ever being called on
    it. *)
Theorem surrogate_raises_after_popen (self : TreeTagger)
    (sentences : sentences_arg) (w : world) (bin s : pystr) (c : codepoint) :
  _treetagger_bin self = Some bin ->
  can_spawn env (argument_vector bin (_abbr_list self)) = true ->
  normalize sentences = IStr s ->
  In c s ->
  55296 <= c <= 57343 ->
  next env (tag self sentences) w
  = (Raised UnicodeEncodeError, Finished, w,
     [EvPopen (argument_vector bin (_abbr_list self)) PIPE]).
Proof.
  intros Hb Hs Hn Hin Hc.
  rewrite next_tag, run_tagger_unfold, Hb. cbv zeta.
  unfold feed. rewrite Hn. cbn [infile_of stdin_usable andb]. rewrite Hs.
  now rewrite (encode_utf8_stuck s c Hin (utf8_char_surrogate c Hc)).
Qed.

(** X6. When [Popen] cannot start the binary, its exception leaves [tag] at
    the first [next]: nothing is encoded, sent, printed or yielded. *)
Theorem unstartable_binary_raises (self : TreeTagger)
    (sentences : sentences_arg) (w : world) (bin : pystr) :
  _treetagger_bin self = Some bin ->
  can_spawn env (argument_vector bin (_abbr_list self)) = false ->
  next env (tag self sentences) w
  = (Raised PopenError, Finished, w,
     [EvPopen (argument_vector bin (_abbr_list self))
        (infile_of (normalize sentences))]).
Proof.
  intros Hb Hs. rewrite next_tag, run_tagger_unfold, Hb. cbv zeta.
  now rewrite Hs, andb_false_r.
Qed.

(** X7. Whatever the instance, the input and the outcome, a call starts at
    most one process and waits for at most one.  It yields records only if
    it ends without an exception or with the [UnicodeDecodeError] of an
    output that is not valid UTF-8: every other failure comes before the
    first record.  A call that ends without exception has printed
    nothing. *)
Theorem one_process_and_no_partial_result (self : TreeTagger)
    (sentences : sentences_arg) (w : world) :
  exists o,
    runs_to env (tag self sentences) w o
    /\ (List.length (popen_calls (effects o)) <= 1)%nat
    /\ (List.length (payloads (effects o)) <= 1)%nat
    /\ (records o <> [] ->
        raised o = None \/ raised o = Some UnicodeDecodeError)
    /\ (raised o = None -> existsb is_print (effects o) = false).
Proof.
  eexists. split; [apply tag_runs_to|].
  rewrite run_tagger_unfold.
  destruct (_treetagger_bin self) as [bin|]; cbv zeta.
  - destruct (stdin_usable env _ && can_spawn env _).
    + destruct (feed env _ sentences w) as [[[input done] w']|].
      * destruct (returncode done =? 0)%Z; cbn [observed_of];
          [destruct (snd (read_outfile env (stdout done)))|]; cbn;
          repeat split; try lia; try congruence; auto.
      * cbn. repeat split; try lia; congruence.
    + cbn. repeat split; try lia; congruence.
  - cbn. repeat split; try lia; congruence.
Qed.

(** X8. After a successful run whose output is valid UTF-8, the call yields
    no record exactly when the process wrote nothing to its output. *)
Theorem no_record_iff_no_output (self : TreeTagger)
    (sentences : sentences_arg) (w : world) (done : completed)
    (text : pystr) :
  exited env self sentences w done ->
  returncode done = 0%Z ->
  stdout_text done = Some text ->
  exists o,
    runs_to env (tag self sentences) w o
    /\ raised o = None
    /\ (records o = [] <-> text = []).
Proof.
  intros H Hrc Ht. apply Z.eqb_eq in Hrc.
  destruct (exited_run _ _ _ _ _ H) as (opened & input & w' & E).
  rewrite Hrc in E.
  eexists. split; [apply tag_runs_to|]. rewrite E.
  cbn [observed_of records raised].
  rewrite (read_outfile_text env done text Ht). cbn [fst snd].
  split; [reflexivity|]. unfold TextFile.lines. split.
  - intro Hm. apply map_eq_nil in Hm. apply keepends_nil in Hm.
    now apply universal_newlines_nil.
  - now intros ->.
Qed.

(** X9. For a readable input the process is started on the object itself.
    When the object has a file descriptor, [communicate] is called without
    a payload, nothing is encoded, and the call ends with
    [OSError('TreeTagger command failed!')] exactly when the process
    returns a non-zero status.  When it has none, [Popen] raises at the
    first [next] and no process is waited for. *)
Theorem readable_input_is_passed_through (self : TreeTagger) (h : handle)
    (w : world) (bin : pystr) :
  _treetagger_bin self = Some bin ->
  can_spawn env (argument_vector bin (_abbr_list self)) = true ->
  (has_fileno env h = true ->
   exists o done,
     runs_to env (tag self (Readable h)) w o
     /\ done = binary env (argument_vector bin (_abbr_list self)) (w h)
     /\ firstn 2 (effects o)
        = [EvPopen (argument_vector bin (_abbr_list self)) (FromStream h);
           EvCommunicate None done]
     /\ raised o <> Some UnicodeEncodeError
     /\ (raised o = Some command_failed <-> returncode done <> 0%Z))
  /\ (has_fileno env h = false ->
      next env (tag self (Readable h)) w
      = (Raised PopenError, Finished, w,
         [EvPopen (argument_vector bin (_abbr_list self)) (FromStream h)])).
Proof.
  intros Hb Hs. split; intro Hf.
  - eexists. eexists. split; [apply tag_runs_to|].
    split; [reflexivity|].
    rewrite run_tagger_unfold, Hb. cbv zeta.
    cbn [normalize infile_of stdin_usable]. rewrite Hf, Hs.
    unfold feed. cbn [normalize andb].
    unfold command_failed.
    destruct (returncode _ =? 0)%Z eqn:E;
      cbn [observed_of effects raised firstn].
    + apply Z.eqb_eq in E.
      destruct (snd (read_outfile env _)); repeat split;
        try discriminate; congruence.
    + apply Z.eqb_neq in E. repeat split; try discriminate; congruence.
  - rewrite next_tag, run_tagger_unfold, Hb. cbv zeta.
    cbn [normalize infile_of stdin_usable]. now rewrite Hf.
Qed.

(** X10. The binary name asked of [find_binary] determines the language:
    on a given platform two languages never share a binary name. *)
Theorem binary_name_determines_language (l1 l2 : pystr) :
  treetagger_bin_name env l1 = treetagger_bin_name env l2 -> l1 = l2.
Proof.
  unfold treetagger_bin_name.
  destruct (pystr_eqb (_platform env) (py "win32")); apply app_inv_head.
Qed.


End Composition.

(** ** What the records are made of *)

Lemma universal_newlines_no_cr (s : pystr) :
  count CR (TextFile.universal_newlines s) = O.
Proof.
  induction s as [|c t IH]; [reflexivity|]. simpl.
  destruct (N.eqb_spec c CR) as [->|Hc].
  - destruct t as [|d t']; [reflexivity|].
    destruct (d =? LF); [exact IH|]. exact IH.
  - simpl. now destruct (N.eqb_spec c CR).
Qed.

Lemma keepends_count (c : codepoint) (s : pystr) :
  count c s = O -> Forall (fun l => count c l = O) (TextFile.keepends s).
Proof.
  induction s as [|d t IH]; intro H; [constructor|].
  apply count_cons_zero in H as [Hd Ht]. specialize (IH Ht). simpl.
  assert (Hone : forall l, count c l = O -> count c (d :: l) = O).
  { intros l Hl. simpl. now destruct (N.eqb_spec d c). }
  destruct (d =? LF); [constructor; [now apply Hone|exact IH]|].
  destruct (TextFile.keepends t) as [|l ls].
  - repeat constructor. now apply Hone.
  - inversion IH; subst. constructor; [now apply Hone|assumption].
Qed.

(** A line of the file holds a newline at its end or nowhere. *)
Lemma keepends_shape (s : pystr) :
  Forall (fun l => exists body,
            count LF body = O /\ (l = body ++ [LF] \/ l = body))
    (TextFile.keepends s).
Proof.
  induction s as [|d t IH]; [constructor|]. simpl.
  destruct (N.eqb_spec d LF) as [->|Hd].
  - constructor; [|exact IH]. exists []. split; [reflexivity|now left].
  - assert (Hone : forall b, count LF b = O -> count LF (d :: b) = O).
    { intros b Hb. simpl. now destruct (N.eqb_spec d LF). }
    destruct (TextFile.keepends t) as [|l ls].
    + repeat constructor. exists [d]. split; [now apply Hone|now right].
    + inversion IH as [|l' ls' [body [Hb Hl]] Hls]; subst l' ls'.
      constructor; [|exact Hls].
      exists (d :: body). split; [now apply Hone|].
      destruct Hl as [->| ->]; [now left|now right].
Qed.

Lemma line_strip_clean (content line : pystr) :
  In line (TextFile.lines content) ->
  count LF (strip line) = O /\ count CR (strip line) = O.
Proof.
  intro Hin. split.
  - pose proof (keepends_shape (TextFile.universal_newlines content)) as H.
    rewrite Forall_forall in H. destruct (H line Hin) as [body [Hb Hl]].
    destruct Hl as [->| ->].
    + rewrite strip_app_spaces by reflexivity. now apply strip_count.
    + now apply strip_count.
  - apply strip_count.
    pose proof (keepends_count CR _ (universal_newlines_no_cr content)) as H.
    rewrite Forall_forall in H. now apply H.
Qed.

(** X12. A record is either [['']], for a line that is blank once stripped,
    or its first field starts and its last field ends with a character that
    is not whitespace: outside blank lines the outer fields are never
    empty. *)
Theorem outer_fields_are_not_blank (tagged_line : pystr) :
  tagged_word_split tagged_line = [[]]
  \/ ((exists c f fs,
         tagged_word_split tagged_line = (c :: f) :: fs
         /\ isspace c = false)
      /\ (exists fs f c,
            tagged_word_split tagged_line = fs ++ [f ++ [c]]
            /\ isspace c = false)).
Proof.
  unfold tagged_word_split.
  destruct (strip_head tagged_line) as [->|(c & t & E & Hc)]; [now left|].
  right. split.
  - rewrite E.
    destruct (split_head TAB c t (isspace_TAB_false c Hc)) as (f & fs & ->).
    now exists c, f, fs.
  - unfold strip in *.
    destruct (rstrip_last (lstrip tagged_line)) as [E0|(u & d & -> & Hd)].
    + rewrite E0 in E. discriminate E.
    + destruct (split_last TAB d u (isspace_TAB_false d Hd)) as (fs & f & ->).
      now exists fs, f, d.
Qed.

Section Records.

Variable env : Env.
Variable self : TreeTagger.

(** X13. No field of any record a call yields holds a tab, a newline or a
    carriage return. *)
Theorem fields_hold_no_separator (sentences : sentences_arg) (w : world) :
  exists o,
    runs_to env (tag self sentences) w o
    /\ Forall (Forall (fun field =>
                         count TAB field = O
                         /\ count LF field = O
                         /\ count CR field = O))
         (records o).
Proof.
  eexists. split; [apply tag_runs_to|].
  destruct (run_tagger env self sentences w) as [[[content|e] w'] log];
    cbn [observed_of records]; [|constructor].
  apply Forall_forall. intros fields Hin.
  apply in_map_iff in Hin as [line [<- Hline]].
  apply read_outfile_In in Hline.
  destruct (line_strip_clean _ line Hline) as [Hlf Hcr].
  unfold tagged_word_split.
  pose proof (split_no_sep TAB (strip line)) as H1.
  pose proof (split_count LF TAB (strip line) Hlf) as H2.
  pose proof (split_count CR TAB (strip line) Hcr) as H3.
  rewrite Forall_forall in *. intros field Hf.
  split; [now apply H1|]. split; [now apply H2|now apply H3].
Qed.

End Records.

(** ** Well-formed output *)

Lemma universal_newlines_without_cr (s : pystr) :
  count CR s = O -> TextFile.universal_newlines s = s.
Proof.
  induction s as [|c t IH]; [reflexivity|].
  intro H. apply count_cons_zero in H as [Hc Ht]. simpl.
  destruct (N.eqb_spec c CR); [contradiction|]. now rewrite IH.
Qed.

Lemma keepends_line (body rest : pystr) :
  count LF body = O ->
  TextFile.keepends (body ++ LF :: rest)
  = (body ++ [LF]) :: TextFile.keepends rest.
Proof.
  induction body as [|c t IH]; intro H; [reflexivity|].
  apply count_cons_zero in H as [Hc Ht]. simpl.
  destruct (N.eqb_spec c LF); [contradiction|]. now rewrite IH.
Qed.

Lemma serialise_cons (row : list pystr) (rows : list (list pystr)) :
  serialise (row :: rows) = join [TAB] row ++ LF :: serialise rows.
Proof. unfold serialise. simpl. now rewrite <- app_assoc. Qed.

Lemma lines_serialise (rows : list (list pystr)) :
  Forall well_formed_row rows ->
  TextFile.lines (serialise rows)
  = List.map (fun row => join [TAB] row ++ [LF]) rows.
Proof.
  intro H. unfold TextFile.lines.
  rewrite universal_newlines_without_cr.
  - induction H as [|row rows (_ & _ & Hlf & _ & _) _ IH]; [reflexivity|].
    rewrite serialise_cons, keepends_line by exact Hlf.
    simpl. now rewrite IH.
  - induction H as [|row rows (_ & _ & _ & Hcr & _) _ IH]; [reflexivity|].
    rewrite serialise_cons, count_app, Hcr. simpl. exact IH.
Qed.

Section Decoding.

Variable env : Env.
Variable self : TreeTagger.

(** X14. When the process succeeds and its output is a sequence of
    well-formed rows, each written as its fields joined by tabs and ended
    by a newline, the call yields exactly those rows, in order. *)
Theorem serialised_rows_come_back (sentences : sentences_arg) (w : world)
    (done : completed) (rows : list (list pystr)) :
  exited env self sentences w done ->
  returncode done = 0%Z ->
  stdout_text done = Some (serialise rows) ->
  Forall well_formed_row rows ->
  exists o,
    runs_to env (tag self sentences) w o
    /\ raised o = None
    /\ records o = rows.
Proof.
  intros H Hrc Hout Hrows. apply Z.eqb_eq in Hrc.
  destruct (exited_run _ _ _ _ _ H) as (opened & input & w' & E).
  rewrite Hrc in E.
  eexists. split; [apply tag_runs_to|]. rewrite E.
  cbn [observed_of records raised].
  rewrite (read_outfile_text env done _ Hout). cbn [fst snd].
  split; [reflexivity|].
  rewrite lines_serialise by exact Hrows.
  rewrite map_map. rewrite <- (map_id rows) at 2.
  apply map_ext_in. intros row Hin.
  rewrite Forall_forall in Hrows.
  destruct (Hrows row Hin) as (Hne & Hf & _ & _ & Hs).
  unfold tagged_word_split. rewrite strip_app_spaces by reflexivity.
  rewrite Hs. now apply split_join.
Qed.

Lemma nth_next_finished (n : nat) (w : world) :
  nth_next env n Finished w = (StopIteration, Finished, w, []).
Proof. induction n as [|n IH]; simpl; [reflexivity|exact IH]. Qed.

Lemma nth_next_suspended (n : nat) (undecodable : bool) :
  forall rest w,
    nth_next env n (Suspended rest undecodable) w =
    if Nat.leb n (List.length rest)
    then (resume (skipn n rest) undecodable, w, [])
    else (StopIteration, Finished, w, []).
Proof.
  induction n as [|n IH]; intros rest w; [reflexivity|].
  destruct rest as [|line rest]; cbn [nth_next next resume].
  - destruct undecodable; apply nth_next_finished.
  - rewrite IH. reflexivity.
Qed.

Lemma nth_next_tag (n : nat) (sentences : sentences_arg) (w : world) :
  nth_next env (S n) (tag self sentences) w =
  match run_tagger env self sentences w with
  | (Ok content, w', _) =>
      if Nat.leb (S n) (List.length (fst (read_outfile env content)))
      then (resume (skipn (S n) (fst (read_outfile env content)))
              (snd (read_outfile env content)), w', [])
      else (StopIteration, Finished, w', [])
  | (Raise _, w', _) => (StopIteration, Finished, w', [])
  end.
Proof.
  cbn [nth_next]. rewrite next_tag.
  destruct (run_tagger env self sentences w) as [[[content|e] w'] log].
  - destruct (read_outfile env content) as [outfile undecodable].
    cbn [fst snd].
    destruct outfile as [|line rest]; cbn [resume skipn List.length Nat.leb].
    + destruct undecodable; apply nth_next_finished.
    + apply nth_next_suspended.
  - apply nth_next_finished.
Qed.

Lemma skipn_nth_error {A} (l : list A) (i : nat) (x : A) :
  nth_error l i = Some x -> exists tl, skipn i l = x :: tl.
Proof.
  revert l. induction i as [|i IH]; intros [|y l] H; try discriminate.
  - injection H as ->. now exists l.
  - simpl in *. now apply IH.
Qed.

(** X15. After a successful run whose output is valid UTF-8, the [next]
    number [i] (from 0) yields the record of line number [i] of the
    output; only the first [next] talks to the process, the later ones
    have no effect outside. *)
Theorem nth_next_yields_nth_line (sentences : sentences_arg) (w : world)
    (done : completed) (text : pystr) (i : nat) (line : pystr) :
  exited env self sentences w done ->
  returncode done = 0%Z ->
  stdout_text done = Some text ->
  nth_error (TextFile.lines text) i = Some line ->
  answer_of (nth_next env i (tag self sentences) w)
    = Yield (tagged_word_split line)
  /\ (i <> O -> log_of (nth_next env i (tag self sentences) w) = []).
Proof.
  intros H Hrc Ht Hi. apply Z.eqb_eq in Hrc.
  destruct (exited_run _ _ _ _ _ H) as (opened & input & w' & E).
  rewrite Hrc in E.
  destruct (skipn_nth_error _ _ _ Hi) as [tl Htl].
  assert (Hlt : (i < List.length (TextFile.lines text))%nat)
    by (apply nth_error_Some; congruence).
  destruct i as [|i].
  - cbn [nth_next]. rewrite next_tag, E.
    rewrite (read_outfile_text env done text Ht). cbn [fst snd].
    simpl in Htl. rewrite Htl. split; [reflexivity|congruence].
  - rewrite nth_next_tag, E.
    rewrite (read_outfile_text env done text Ht). cbn [fst snd].
    assert (Nat.leb (S i) (List.length (TextFile.lines text)) = true) as ->
      by (apply Nat.leb_le; lia).
    rewrite Htl. split; reflexivity.
Qed.

(** X16. A generator of [tag] is finite and single-pass: from some [next]
    on, every [next] answers [StopIteration] and does nothing else, also
    after the call has raised; the process is never run again. *)
Theorem generator_is_single_pass (sentences : sentences_arg) (w : world) :
  exists n,
    forall m, (n <= m)%nat ->
      answer_of (nth_next env m (tag self sentences) w) = StopIteration
      /\ log_of (nth_next env m (tag self sentences) w) = [].
Proof.
  destruct (run_tagger env self sentences w) as [[[content|e] w'] log] eqn:E.
  - exists (S (S (List.length (fst (read_outfile env content))))).
    intros m Hm.
    destruct m as [|m]; [lia|]. rewrite nth_next_tag, E.
    assert (Nat.leb (S m) (List.length (fst (read_outfile env content)))
            = false) as -> by (apply Nat.leb_gt; lia).
    split; reflexivity.
  - exists 1%nat. intros m Hm. destruct m as [|m]; [lia|].
    rewrite nth_next_tag, E. split; reflexivity.
Qed.

End Decoding.

(** ** Line ends *)

Lemma serialise_no_cr (rows : list (list pystr)) :
  Forall well_formed_row rows -> count CR (serialise rows) = O.
Proof.
  intro H. induction H as [|row rows (_ & _ & _ & Hcr & _) _ IH];
    [reflexivity|].
  rewrite serialise_cons, count_app, Hcr. simpl. exact IH.
Qed.

Lemma universal_newlines_to_crlf (s : pystr) :
  count CR s = O -> TextFile.universal_newlines (to_crlf s) = s.
Proof.
  induction s as [|c t IH]; [reflexivity|].
  intro H. apply count_cons_zero in H as [Hc Ht]. specialize (IH Ht).
  unfold to_crlf in *. cbn [flat_map].
  destruct (N.eqb_spec c LF) as [->|Hlf].
  - cbn [app TextFile.universal_newlines]. cbn. now rewrite IH.
  - cbn [app TextFile.universal_newlines].
    destruct (N.eqb_spec c CR); [contradiction|]. now rewrite IH.
Qed.

Lemma keepends_single (s : pystr) :
  count LF s = O -> s <> [] -> TextFile.keepends s = [s].
Proof.
  induction s as [|c t IH]; [contradiction|].
  intros H _. apply count_cons_zero in H as [Hc Ht]. simpl.
  destruct (N.eqb_spec c LF); [contradiction|].
  destruct t as [|d t']; [reflexivity|].
  now rewrite IH.
Qed.

Lemma keepends_unterminated (rows : list (list pystr)) (body : pystr) :
  Forall well_formed_row rows ->
  count LF body = O ->
  body <> [] ->
  TextFile.keepends (serialise rows ++ body)
  = List.map (fun row => join [TAB] row ++ [LF]) rows ++ [body].
Proof.
  intros H Hb Hne. induction H as [|row rows (_ & _ & Hlf & _ & _) _ IH].
  - now apply keepends_single.
  - rewrite serialise_cons, <- app_assoc, <- app_comm_cons.
    rewrite keepends_line by exact Hlf. simpl. now rewrite IH.
Qed.

Section LineEnds.

Variable env : Env.
Variable self : TreeTagger.

(** X17. Rows written with Windows line ends come back as the same rows:
    the carriage return before each newline never reaches a field. *)
Theorem crlf_rows_come_back (sentences : sentences_arg) (w : world)
    (done : completed) (rows : list (list pystr)) :
  exited env self sentences w done ->
  returncode done = 0%Z ->
  stdout_text done = Some (to_crlf (serialise rows)) ->
  Forall well_formed_row rows ->
  exists o,
    runs_to env (tag self sentences) w o
    /\ raised o = None
    /\ records o = rows.
Proof.
  intros H Hrc Hout Hrows. apply Z.eqb_eq in Hrc.
  destruct (exited_run _ _ _ _ _ H) as (opened & input & w' & E).
  rewrite Hrc in E.
  eexists. split; [apply tag_runs_to|]. rewrite E.
  cbn [observed_of records raised].
  rewrite (read_outfile_text env done _ Hout). cbn [fst snd].
  split; [reflexivity|].
  unfold TextFile.lines.
  rewrite universal_newlines_to_crlf by now apply serialise_no_cr.
  pose proof (lines_serialise rows Hrows) as L. unfold TextFile.lines in L.
  rewrite universal_newlines_without_cr in L by now apply serialise_no_cr.
  rewrite L, map_map. rewrite <- (map_id rows) at 2.
  apply map_ext_in. intros row Hin.
  rewrite Forall_forall in Hrows.
  destruct (Hrows row Hin) as (Hne & Hf & _ & _ & Hs).
  unfold tagged_word_split. rewrite strip_app_spaces by reflexivity.
  rewrite Hs. now apply split_join.
Qed.

(** X18. A last line the process did not end with a newline is a record
    like the others. *)
Theorem unterminated_last_line_is_a_record (sentences : sentences_arg)
    (w : world) (done : completed) (rows : list (list pystr))
    (row : list pystr) :
  exited env self sentences w done ->
  returncode done = 0%Z ->
  stdout_text done = Some (serialise rows ++ join [TAB] row) ->
  Forall well_formed_row rows ->
  well_formed_row row ->
  join [TAB] row <> [] ->
  exists o,
    runs_to env (tag self sentences) w o
    /\ raised o = None
    /\ records o = rows ++ [row].
Proof.
  intros H Hrc Hout Hrows (Hne & Hf & Hlf & Hcr & Hs) Hbody.
  apply Z.eqb_eq in Hrc.
  destruct (exited_run _ _ _ _ _ H) as (opened & input & w' & E).
  rewrite Hrc in E.
  eexists. split; [apply tag_runs_to|]. rewrite E.
  cbn [observed_of records raised].
  rewrite (read_outfile_text env done _ Hout). cbn [fst snd].
  split; [reflexivity|].
  unfold TextFile.lines.
  rewrite universal_newlines_without_cr
    by (rewrite count_app, Hcr, serialise_no_cr by exact Hrows; reflexivity).
  rewrite keepends_unterminated by assumption.
  rewrite map_app, map_map. f_equal.
  - rewrite <- (map_id rows) at 2.
    apply map_ext_in. intros r Hin.
    rewrite Forall_forall in Hrows.
    destruct (Hrows r Hin) as (Hne' & Hf' & _ & _ & Hs').
    unfold tagged_word_split. rewrite strip_app_spaces by reflexivity.
    rewrite Hs'. now apply split_join.
  - cbn [List.map]. unfold tagged_word_split. rewrite Hs.
    now rewrite split_join.
Qed.

End LineEnds.

(** * The further properties on the sample collaborators *)

Lemma well_formed_line_gives_its_fields_witness :
  [py "What"; py "WP"; py "What"] <> []
  /\ Forall (fun f => count TAB f = O) [py "What"; py "WP"; py "What"]
  /\ strip (join [TAB] [py "What"; py "WP"; py "What"])
     = join [TAB] [py "What"; py "WP"; py "What"]
  /\ tagged_word_split (join [TAB] [py "What"; py "WP"; py "What"] ++ [LF])
     = [py "What"; py "WP"; py "What"].
Proof.
  assert (H1 : [py "What"; py "WP"; py "What"] <> []) by discriminate.
  assert (H2 : Forall (fun f => count TAB f = O)
                 [py "What"; py "WP"; py "What"])
    by (repeat constructor).
  split; [exact H1|]. split; [exact H2|]. split; [reflexivity|].
  exact (well_formed_line_gives_its_fields _ H1 H2 eq_refl).
Defined.

Lemma surrounding_whitespace_makes_no_field_witness :
  forallb isspace [TAB] = true
  /\ forallb isspace [TAB; LF] = true
  /\ tagged_word_split ([TAB] ++ (py "VBZ" ++ [TAB] ++ py "be") ++ [TAB; LF])
     = tagged_word_split (py "VBZ" ++ [TAB] ++ py "be").
Proof.
  split; [reflexivity|]. split; [reflexivity|].
  exact (surrounding_whitespace_makes_no_field [TAB]
           (py "VBZ" ++ [TAB] ++ py "be") [TAB; LF] eq_refl eq_refl).
Defined.

Lemma tokens_are_one_per_line_witness :
  [py "What"; py "is"] <> []
  /\ Forall (fun t => count LF t = O) [py "What"; py "is"]
  /\ exists s,
       normalize (TokenList [py "What"; py "is"]) = IStr s
       /\ split LF s = [py "What"; py "is"].
Proof.
  assert (H1 : [py "What"; py "is"] <> []) by discriminate.
  assert (H2 : Forall (fun t => count LF t = O) [py "What"; py "is"])
    by (repeat constructor).
  split; [exact H1|]. split; [exact H2|].
  exact (tokens_are_one_per_line _ H1 H2).
Defined.

Lemma token_payload_is_joined_encodings_witness :
  _treetagger_bin sample_tagger
    = Some (py "/usr/local/bin/tree-tagger-english")
  /\ can_spawn (script 0 [] "")
       (argument_vector (py "/usr/local/bin/tree-tagger-english")
          (_abbr_list sample_tagger)) = true
  /\ payloads (log_of (next (script 0 [] "")
                         (tag sample_tagger (TokenList [py "a"; py "cat"]))
                         no_streams))
     = [Some (["a"; "010"; "c"; "a"; "t"]%byte)].
Proof.
  split; [reflexivity|]. split; [reflexivity|].
  exact (token_payload_is_joined_encodings (script 0 [] "") sample_tagger
           [py "a"; py "cat"] no_streams
           (py "/usr/local/bin/tree-tagger-english") eq_refl eq_refl).
Defined.

Lemma surrogate_raises_after_popen_witness :
  _treetagger_bin sample_tagger
    = Some (py "/usr/local/bin/tree-tagger-english")
  /\ can_spawn (script 0 [] "")
       (argument_vector (py "/usr/local/bin/tree-tagger-english")
          (_abbr_list sample_tagger)) = true
  /\ normalize (Text [97; 55296]) = IStr [97; 55296]
  /\ In 55296 [97; 55296]
  /\ 55296 <= 55296 <= 57343
  /\ next (script 0 [] "") (tag sample_tagger (Text [97; 55296])) no_streams
     = (Raised UnicodeEncodeError, Finished, no_streams,
        [EvPopen (argument_vector (py "/usr/local/bin/tree-tagger-english")
                    (_abbr_list sample_tagger)) PIPE]).
Proof.
  assert (Hin : In 55296 [97; 55296]) by (simpl; auto).
  assert (Hc : 55296 <= 55296 <= 57343) by lia.
  split; [reflexivity|]. split; [reflexivity|]. split; [reflexivity|].
  split; [exact Hin|]. split; [exact Hc|].
  exact (surrogate_raises_after_popen (script 0 [] "") sample_tagger
           (Text [97; 55296]) no_streams
           (py "/usr/local/bin/tree-tagger-english") [97; 55296] 55296
           eq_refl eq_refl eq_refl Hin Hc).
Defined.

Lemma unstartable_binary_raises_witness :
  _treetagger_bin sample_tagger
    = Some (py "/usr/local/bin/tree-tagger-english")
  /\ can_spawn bare_platform
       (argument_vector (py "/usr/local/bin/tree-tagger-english")
          (_abbr_list sample_tagger)) = false
  /\ next bare_platform (tag sample_tagger (Text (py "a cat"))) no_streams
     = (Raised PopenError, Finished, no_streams,
        [EvPopen (argument_vector (py "/usr/local/bin/tree-tagger-english")
                    (_abbr_list sample_tagger))
           (infile_of (normalize (Text (py "a cat"))))]).
Proof.
  split; [reflexivity|]. split; [reflexivity|].
  exact (unstartable_binary_raises bare_platform sample_tagger
           (Text (py "a cat")) no_streams
           (py "/usr/local/bin/tree-tagger-english") eq_refl eq_refl).
Defined.

Lemma no_record_iff_no_output_witness :
  exited (script 0 output_with_blank_line "") sample_tagger
    (TokenList [py "a"; py "cat"]) no_streams three_lines
  /\ returncode three_lines = 0%Z
  /\ stdout_text three_lines = Some output_with_blank_line
  /\ exists o,
       runs_to (script 0 output_with_blank_line "")
         (tag sample_tagger (TokenList [py "a"; py "cat"])) no_streams o
       /\ raised o = None
       /\ (records o = [] <-> output_with_blank_line = []).
Proof.
  split; [exact three_lines_exited|]. split; [reflexivity|].
  split; [reflexivity|].
  exact (no_record_iff_no_output (script 0 output_with_blank_line "")
           sample_tagger (TokenList [py "a"; py "cat"]) no_streams
           three_lines output_with_blank_line three_lines_exited
           eq_refl eq_refl).
Defined.

Lemma readable_input_is_passed_through_witness :
  _treetagger_bin sample_tagger
    = Some (py "/usr/local/bin/tree-tagger-english")
  /\ can_spawn echo
       (argument_vector (py "/usr/local/bin/tree-tagger-english")
          (_abbr_list sample_tagger)) = true
  /\ has_fileno echo 0%nat = true
  /\ has_fileno echo 1%nat = false
  /\ (exists o done,
        runs_to echo (tag sample_tagger (Readable 0%nat)) world_a o
        /\ done = binary echo
                    (argument_vector (py "/usr/local/bin/tree-tagger-english")
                       (_abbr_list sample_tagger)) (world_a 0%nat)
        /\ firstn 2 (effects o)
           = [EvPopen (argument_vector
                         (py "/usr/local/bin/tree-tagger-english")
                         (_abbr_list sample_tagger)) (FromStream 0%nat);
              EvCommunicate None done]
        /\ raised o <> Some UnicodeEncodeError
        /\ (raised o = Some command_failed <-> returncode done <> 0%Z))
  /\ next echo (tag sample_tagger (Readable 1%nat)) world_a
     = (Raised PopenError, Finished, world_a,
        [EvPopen (argument_vector (py "/usr/local/bin/tree-tagger-english")
                    (_abbr_list sample_tagger)) (FromStream 1%nat)]).
Proof.
  split; [reflexivity|]. split; [reflexivity|].
  split; [reflexivity|]. split; [reflexivity|]. split.
  - exact (proj1 (readable_input_is_passed_through echo sample_tagger 0%nat
                    world_a (py "/usr/local/bin/tree-tagger-english")
                    eq_refl eq_refl) eq_refl).
  - exact (proj2 (readable_input_is_passed_through echo sample_tagger 1%nat
                    world_a (py "/usr/local/bin/tree-tagger-english")
                    eq_refl eq_refl) eq_refl).
Defined.

Lemma binary_name_determines_language_witness :
  treetagger_bin_name echo (py "english")
    = treetagger_bin_name echo (py "english")
  /\ py "english" = py "english".
Proof.
  split; [reflexivity|].
  exact (binary_name_determines_language echo (py "english") (py "english")
           eq_refl).
Defined.


Lemma two_rows_exited :
  exited (script 0 (serialise two_rows) "") sample_tagger
    (Text (py "What is")) no_streams (written 0 (serialise two_rows) "").
Proof. eexists. simpl. right. left. reflexivity. Defined.

Lemma two_rows_well_formed : Forall well_formed_row two_rows.
Proof.
  repeat constructor; try discriminate; reflexivity.
Defined.

Lemma serialised_rows_come_back_witness :
  exited (script 0 (serialise two_rows) "") sample_tagger
    (Text (py "What is")) no_streams (written 0 (serialise two_rows) "")
  /\ returncode (written 0 (serialise two_rows) "") = 0%Z
  /\ stdout_text (written 0 (serialise two_rows) "")
     = Some (serialise two_rows)
  /\ Forall well_formed_row two_rows
  /\ exists o,
       runs_to (script 0 (serialise two_rows) "")
         (tag sample_tagger (Text (py "What is"))) no_streams o
       /\ raised o = None
       /\ records o = two_rows.
Proof.
  split; [exact two_rows_exited|]. split; [reflexivity|].
  split; [reflexivity|]. split; [exact two_rows_well_formed|].
  exact (serialised_rows_come_back (script 0 (serialise two_rows) "")
           sample_tagger (Text (py "What is")) no_streams
           (written 0 (serialise two_rows) "") two_rows
           two_rows_exited eq_refl eq_refl two_rows_well_formed).
Defined.

Lemma nth_next_yields_nth_line_witness :
  exited (script 0 output_with_blank_line "") sample_tagger
    (TokenList [py "a"; py "cat"]) no_streams three_lines
  /\ returncode three_lines = 0%Z
  /\ stdout_text three_lines = Some output_with_blank_line
  /\ nth_error (TextFile.lines output_with_blank_line) 1 = Some [LF]
  /\ answer_of (nth_next (script 0 output_with_blank_line "") 1
                  (tag sample_tagger (TokenList [py "a"; py "cat"]))
                  no_streams)
     = Yield (tagged_word_split [LF])
  /\ (1%nat <> O ->
      log_of (nth_next (script 0 output_with_blank_line "") 1
                (tag sample_tagger (TokenList [py "a"; py "cat"]))
                no_streams) = []).
Proof.
  split; [exact three_lines_exited|]. split; [reflexivity|].
  split; [reflexivity|]. split; [reflexivity|].
  exact (nth_next_yields_nth_line (script 0 output_with_blank_line "")
           sample_tagger (TokenList [py "a"; py "cat"]) no_streams
           three_lines output_with_blank_line 1%nat [LF]
           three_lines_exited eq_refl eq_refl eq_refl).
Defined.

Lemma crlf_rows_exited :
  exited (script 0 (to_crlf (serialise two_rows)) "") sample_tagger
    (Text (py "What is")) no_streams
    (written 0 (to_crlf (serialise two_rows)) "").
Proof. eexists. simpl. right. left. reflexivity. Defined.

Lemma crlf_rows_come_back_witness :
  exited (script 0 (to_crlf (serialise two_rows)) "") sample_tagger
    (Text (py "What is")) no_streams
    (written 0 (to_crlf (serialise two_rows)) "")
  /\ returncode (written 0 (to_crlf (serialise two_rows)) "") = 0%Z
  /\ stdout_text (written 0 (to_crlf (serialise two_rows)) "")
     = Some (to_crlf (serialise two_rows))
  /\ Forall well_formed_row two_rows
  /\ exists o,
       runs_to (script 0 (to_crlf (serialise two_rows)) "")
         (tag sample_tagger (Text (py "What is"))) no_streams o
       /\ raised o = None
       /\ records o = two_rows.
Proof.
  split; [exact crlf_rows_exited|]. split; [reflexivity|].
  split; [reflexivity|]. split; [exact two_rows_well_formed|].
  exact (crlf_rows_come_back (script 0 (to_crlf (serialise two_rows)) "")
           sample_tagger (Text (py "What is")) no_streams
           (written 0 (to_crlf (serialise two_rows)) "") two_rows
           crlf_rows_exited eq_refl eq_refl two_rows_well_formed).
Defined.

Lemma unterminated_exited :
  exited (script 0 (serialise two_rows ++ join [TAB] [py "?"; py "SENT"]) "")
    sample_tagger (Text (py "What is ?")) no_streams
    (written 0 (serialise two_rows ++ join [TAB] [py "?"; py "SENT"]) "").
Proof. eexists. simpl. right. left. reflexivity. Defined.

Lemma question_row_well_formed : well_formed_row [py "?"; py "SENT"].
Proof. repeat split; try discriminate; repeat constructor. Defined.

Lemma unterminated_last_line_is_a_record_witness :
  exited (script 0 (serialise two_rows ++ join [TAB] [py "?"; py "SENT"]) "")
    sample_tagger (Text (py "What is ?")) no_streams
    (written 0 (serialise two_rows ++ join [TAB] [py "?"; py "SENT"]) "")
  /\ returncode
       (written 0 (serialise two_rows ++ join [TAB] [py "?"; py "SENT"]) "")
     = 0%Z
  /\ stdout_text
       (written 0 (serialise two_rows ++ join [TAB] [py "?"; py "SENT"]) "")
     = Some (serialise two_rows ++ join [TAB] [py "?"; py "SENT"])
  /\ Forall well_formed_row two_rows
  /\ well_formed_row [py "?"; py "SENT"]
  /\ join [TAB] [py "?"; py "SENT"] <> []
  /\ exists o,
       runs_to
         (script 0 (serialise two_rows ++ join [TAB] [py "?"; py "SENT"]) "")
         (tag sample_tagger (Text (py "What is ?"))) no_streams o
       /\ raised o = None
       /\ records o = two_rows ++ [[py "?"; py "SENT"]].
Proof.
  assert (Hne : join [TAB] [py "?"; py "SENT"] <> []) by discriminate.
  split; [exact unterminated_exited|]. split; [reflexivity|].
  split; [reflexivity|]. split; [exact two_rows_well_formed|].
  split; [exact question_row_well_formed|]. split; [exact Hne|].
  exact (unterminated_last_line_is_a_record
           (script 0 (serialise two_rows ++ join [TAB] [py "?"; py "SENT"]) "")
           sample_tagger (Text (py "What is ?")) no_streams
           (written 0 (serialise two_rows ++ join [TAB] [py "?"; py "SENT"]) "")
           two_rows [py "?"; py "SENT"]
           unterminated_exited eq_refl eq_refl two_rows_well_formed
           question_row_well_formed Hne).
Defined.
